(** * Space cargo stowage: placement state, retrieval and waste planning

    A shallow embedding of the Python back end
    (backend/models, backend/utils/coordinates.py,
    backend/engines/{advanced_placement_engine,retrieval_engine,waste_engine}.py)
    together with the properties the design document states about it.

    Modelling conventions.
    - Python [float] values are exact rationals ([Q]); no rounding is
      modelled.  Python [int] values are [Z].
    - A [Dict[str, Item]] is an insertion-ordered association list
      ([odict]), because the engines iterate over [.values()] and the
      iteration order decides the order of their outputs.  The container
      dictionary is only ever looked up and deleted from, so it is a
      [gmap].
    - [datetime.fromisoformat] belongs to the Python standard library; it
      is a parameter [fromisoformat : string -> option datetime] of every
      definition that parses a date ([None] stands for [ValueError]).
    - A function that can raise returns a [result]. *)

From Stdlib Require Import ZArith QArith Lqa Lia Ascii String.
From stdpp Require Import base option list strings gmap.

Local Open Scope string_scope.

(** ** Python-side helpers *)

(** Strict comparison on rationals, as a boolean. *)
Definition Qlt_bool (x y : Q) : bool := negb (Qle_bool y x).

(** Truthiness of an [Optional[str]]: [None] and the empty string are falsy. *)
Definition truthy_str (o : option string) : bool :=
  match o with
  | None => false
  | Some s => negb (String.eqb s "")
  end.

(** Insertion-ordered dictionary with string keys. *)
Abbreviation odict V := (list (string * V)).

Fixpoint odict_get {V} (k : string) (d : odict V) : option V :=
  match d with
  | [] => None
  | (k', v) :: d' => if String.eqb k k' then Some v else odict_get k d'
  end.

Definition odict_values {V} (d : odict V) : list V := map snd d.

Definition odict_keys {V} (d : odict V) : list string := map fst d.

(** [del d[k]] for a key that is present. *)
Definition odict_del {V} (k : string) (d : odict V) : odict V :=
  filter (fun kv => negb (String.eqb k (fst kv))) d.

(** In-place mutation of the object stored under [k]. *)
Fixpoint odict_set {V} (k : string) (v : V) (d : odict V) : odict V :=
  match d with
  | [] => []
  | (k', v') :: d' =>
      if String.eqb k k' then (k', v) :: d' else (k', v') :: odict_set k v d'
  end.

(** Stable insertion sort by a rational key, ascending: the list that
    [list.sort(key=...)] produces (a stable sort has a unique result). *)
Fixpoint insert_by_key {A} (key : A -> Q) (x : A) (l : list A) : list A :=
  match l with
  | [] => [x]
  | y :: l' =>
      if Qle_bool (key x) (key y) then x :: y :: l'
      else y :: insert_by_key key x l'
  end.

Definition sort_by_key {A} (key : A -> Q) (l : list A) : list A :=
  foldr (insert_by_key key) [] l.

(** [list.sort(key=..., reverse=True)]: descending, equal keys keep their
    original relative order. *)
Definition sort_by_key_reverse {A} (key : A -> Q) (l : list A) : list A :=
  sort_by_key (fun a => - key a)%Q l.

(** Exceptions raised by the modelled functions. *)
Inductive exn := ValueError | KeyError | TypeError.

Inductive result (A : Type) :=
| Ok (a : A)
| Raise (e : exn).
Arguments Ok {A} a.
Arguments Raise {A} e.

Definition rbind {A B} (r : result A) (k : A -> result B) : result B :=
  match r with
  | Ok a => k a
  | Raise e => Raise e
  end.

Notation "'let!' x ':=' r 'in' k" := (rbind r (fun x => k))
  (at level 10, x name, r at level 100, k at level 200).

(** ** datetime *)

(** A [datetime] is its wall-clock reading in microseconds since the epoch
    and, when it is timezone-aware, its UTC offset in microseconds. *)
Record datetime := mk_datetime {
  dt_wall : Z;
  dt_utcoffset : option Z
}.

Definition naive (micros : Z) : datetime := mk_datetime micros None.

Definition microseconds_per_day : Z := 86400000000.

(** [a - b] as a number of microseconds; mixing naive and aware operands
    raises [TypeError]. *)
Definition dt_sub (a b : datetime) : result Z :=
  match dt_utcoffset a, dt_utcoffset b with
  | None, None => Ok (dt_wall a - dt_wall b)%Z
  | Some oa, Some ob => Ok ((dt_wall a - oa) - (dt_wall b - ob))%Z
  | _, _ => Raise TypeError
  end.

(** [a > b]. *)
Definition dt_gt (a b : datetime) : result bool :=
  let! d := dt_sub a b in Ok (0 <? d)%Z.

(** [timedelta.days]: the floor of the difference in days. *)
Definition timedelta_days (micros : Z) : Z := (micros / microseconds_per_day)%Z.

(** ** backend/utils/coordinates.py *)

Module Coordinates3D.
Record t := mk {
  width : Q;
  depth : Q;
  height : Q
}.
End Coordinates3D.

(** The [position] dictionary of an item:
    [{startCoordinates: {...}, endCoordinates: {...}}]. *)
Record Position := mk_position {
  startCoordinates : Coordinates3D.t;
  endCoordinates : Coordinates3D.t
}.

(** ** backend/models/item.py *)

Module Item.
Record t := mk {
  itemId : string;
  name : string;
  width : Q;
  depth : Q;
  height : Q;
  priority : Z;
  preferredZone : string;
  mass : Q;
  expiryDate : option string;
  usageLimit : Z;
  containerId : option string;
  (* [None] stands for a falsy position ([None] or the empty dict). *)
  position : option Position;
  currentUses : Z;
  placementTimestamp : option string
}.

Definition set_currentUses (n : Z) (i : t) : t :=
  mk (itemId i) (name i) (width i) (depth i) (height i) (priority i)
     (preferredZone i) (mass i) (expiryDate i) (usageLimit i)
     (containerId i) (position i) n (placementTimestamp i).

Definition get_volume (i : t) : Q := (width i * depth i * height i)%Q.

Section Expiry.
Variable fromisoformat : string -> option datetime.

(** [is_expired]: the bare [except] turns every exception of the parse and
    of the comparison into [False]. *)
Definition is_expired (i : t) (current_date : datetime) : bool :=
  match expiryDate i with
  | None => false
  | Some s =>
      (* [not self.expiryDate or self.expiryDate == "N/A"] *)
      if String.eqb s "" || String.eqb s "N/A" then false
      else match fromisoformat s with
           | None => false
           | Some expiry =>
               match dt_gt current_date expiry with
               | Ok b => b
               | Raise _ => false
               end
           end
  end.
End Expiry.

Definition is_depleted (i : t) : bool := (usageLimit i <=? currentUses i)%Z.

(** Truthiness test [not item.containerId or not item.position]. *)
Definition not_placed (i : t) : bool :=
  negb (truthy_str (containerId i)) || negb (bool_decide (is_Some (position i))).
End Item.

(** ** backend/models/container.py *)

Module Container.
Record t := mk {
  containerId : string;
  zone : string;
  width : Q;
  depth : Q;
  height : Q;
  items : list string
}.

Definition get_volume (c : t) : Q := (width c * depth c * height c)%Q.

Definition get_used_volume (c : t) (items_dict : odict Item.t) : Q :=
  foldl (fun used item_id =>
           match odict_get item_id items_dict with
           | Some it =>
               match Item.position it with
               | Some pos =>
                   let s := startCoordinates pos in
                   let e := endCoordinates pos in
                   (used + (Coordinates3D.width e - Coordinates3D.width s) *
                           (Coordinates3D.depth e - Coordinates3D.depth s) *
                           (Coordinates3D.height e - Coordinates3D.height s))%Q
               | None => used
               end
           | None => used
           end) 0%Q (items c).

Definition get_available_volume (c : t) (items_dict : odict Item.t) : Q :=
  (get_volume c - get_used_volume c items_dict)%Q.
End Container.

(** ** backend/engines/advanced_placement_engine.py: container state *)

Module FreeSpace.
Record t := mk {
  x : Q;
  y : Q;
  z : Q;
  width : Q;
  depth : Q;
  height : Q
}.

Definition volume (f : t) : Q := (width f * depth f * height f)%Q.

Definition can_fit (f : t) (w d h : Q) : bool :=
  Qle_bool w (width f) && Qle_bool d (depth f) && Qle_bool h (height f).
End FreeSpace.

(** An axis-aligned box [(min_x, min_y, min_z, max_x, max_y, max_z)]. *)
Record AABB := mk_aabb {
  min_x : Q; min_y : Q; min_z : Q;
  max_x : Q; max_y : Q; max_z : Q
}.

Module PlacedItem.
Record t := mk {
  item_id : string;
  x : Q;
  y : Q;
  z : Q;
  width : Q;
  depth : Q;
  height : Q;
  original_dims : Q * Q * Q;
  priority : Z
}.

Definition get_volume (p : t) : Q := (width p * depth p * height p)%Q.

Definition get_aabb (p : t) : AABB :=
  mk_aabb (x p) (y p) (z p)
          (x p + width p)%Q (y p + depth p)%Q (z p + height p)%Q.
End PlacedItem.

(** The collision test of [can_place_item]:
    [not (a.max_x <= b.min_x or a.min_x >= b.max_x or ...)]. *)
Definition aabb_overlap (a b : AABB) : bool :=
  negb (Qle_bool (max_x a) (min_x b) || Qle_bool (max_x b) (min_x a) ||
        Qle_bool (max_y a) (min_y b) || Qle_bool (max_y b) (min_y a) ||
        Qle_bool (max_z a) (min_z b) || Qle_bool (max_z b) (min_z a)).

Module ContainerState.
Record t := mk {
  container_id : string;
  width : Q;
  depth : Q;
  height : Q;
  zone : string;
  placed_items : list PlacedItem.t;
  free_spaces : list FreeSpace.t;
  total_volume : Q;
  used_volume : Q
}.

(** [__init__]: no placed item, one free box spanning the container. *)
Definition init (cid : string) (w d h : Q) (zn : string) : t :=
  mk cid w d h zn [] [FreeSpace.mk 0 0 0 w d h] (w * d * h)%Q 0%Q.

Definition can_place_item (s : t) (x y z w d h : Q) : bool :=
  if Qlt_bool x 0 || Qlt_bool y 0 || Qlt_bool z 0 ||
     Qlt_bool (width s) (x + w) ||
     Qlt_bool (depth s) (y + d) ||
     Qlt_bool (height s) (z + h)
  then false
  else
    let item_aabb := mk_aabb x y z (x + w)%Q (y + d)%Q (z + h)%Q in
    forallb (fun placed_item =>
               negb (aabb_overlap item_aabb (PlacedItem.get_aabb placed_item)))
            (placed_items s).

Definition _spaces_overlap (space1 space2 : FreeSpace.t) : bool :=
  negb (Qle_bool (FreeSpace.x space1 + FreeSpace.width space1) (FreeSpace.x space2) ||
        Qle_bool (FreeSpace.x space2 + FreeSpace.width space2) (FreeSpace.x space1) ||
        Qle_bool (FreeSpace.y space1 + FreeSpace.depth space1) (FreeSpace.y space2) ||
        Qle_bool (FreeSpace.y space2 + FreeSpace.depth space2) (FreeSpace.y space1) ||
        Qle_bool (FreeSpace.z space1 + FreeSpace.height space1) (FreeSpace.z space2) ||
        Qle_bool (FreeSpace.z space2 + FreeSpace.height space2) (FreeSpace.z space1)).

(** The left and right residual boxes of one free box around the item. *)
Definition splits (free_space item_space : FreeSpace.t) : list FreeSpace.t :=
  (if Qlt_bool (FreeSpace.x free_space) (FreeSpace.x item_space)
   then [FreeSpace.mk (FreeSpace.x free_space) (FreeSpace.y free_space)
           (FreeSpace.z free_space)
           (FreeSpace.x item_space - FreeSpace.x free_space)
           (FreeSpace.depth free_space) (FreeSpace.height free_space)]
   else []) ++
  (if Qlt_bool (FreeSpace.x item_space + FreeSpace.width item_space)
               (FreeSpace.x free_space + FreeSpace.width free_space)
   then [FreeSpace.mk (FreeSpace.x item_space + FreeSpace.width item_space)
           (FreeSpace.y free_space) (FreeSpace.z free_space)
           ((FreeSpace.x free_space + FreeSpace.width free_space) -
            (FreeSpace.x item_space + FreeSpace.width item_space))
           (FreeSpace.depth free_space) (FreeSpace.height free_space)]
   else []).

(** The loop body of [_update_free_spaces] for one free box. *)
Definition split_or_keep (item_space free_space : FreeSpace.t) : list FreeSpace.t :=
  if _spaces_overlap free_space item_space
  then filter (fun s => Qlt_bool 10 (FreeSpace.volume s)) (splits free_space item_space)
  else [free_space].

Definition max_free_spaces : nat := 50.

Definition _update_free_spaces (s : t) (x y z w d h : Q) : list FreeSpace.t :=
  let item_space := FreeSpace.mk x y z w d h in
  let new_free_spaces := flat_map (split_or_keep item_space) (free_spaces s) in
  if (max_free_spaces <? length new_free_spaces)%nat
  then take max_free_spaces (sort_by_key_reverse FreeSpace.volume new_free_spaces)
  else new_free_spaces.

Definition place_item (s : t) (item_id : string) (x y z w d h : Q)
    (original_dims : Q * Q * Q) (priority : Z) : bool * t :=
  if negb (can_place_item s x y z w d h) then (false, s)
  else
    let item := PlacedItem.mk item_id x y z w d h original_dims priority in
    (true,
     mk (container_id s) (width s) (depth s) (height s) (zone s)
        (placed_items s ++ [item])
        (_update_free_spaces s x y z w d h)
        (total_volume s)
        (used_volume s + PlacedItem.get_volume item)%Q).
End ContainerState.

(** One [place_item] call and a sequence of them. *)
Record place_call := mk_call {
  call_item_id : string;
  call_x : Q; call_y : Q; call_z : Q;
  call_width : Q; call_depth : Q; call_height : Q;
  call_original_dims : Q * Q * Q;
  call_priority : Z
}.

Definition do_call (s : ContainerState.t) (c : place_call) : bool * ContainerState.t :=
  ContainerState.place_item s (call_item_id c) (call_x c) (call_y c) (call_z c)
    (call_width c) (call_depth c) (call_height c)
    (call_original_dims c) (call_priority c).

Definition run_calls (s : ContainerState.t) (cs : list place_call) : ContainerState.t :=
  foldl (fun st c => snd (do_call st c)) s cs.

(** ** backend/engines/retrieval_engine.py *)

Inductive action := remove | retrieve | placeBack.

Record RetrievalStep := mk_step {
  step : nat;
  step_action : action;
  step_itemId : string;
  step_itemName : string
}.

(** Outcome of [simulate_retrieval]: the returned triple and the item
    dictionary after the call (the item object is mutated in place). *)
Record RetrievalOutcome := mk_outcome {
  success : bool;
  message : string;
  returned_item : option Item.t;
  store_after : odict Item.t
}.

(** The [containers] argument of [_get_blocking_items],
    [get_retrieval_steps] and [simulate_retrieval] is never read by the
    source and is left out; [calculate_retrieval_steps] repeats the loop of
    [_get_blocking_items] and returns the length of its result. *)
Module RetrievalEngine.

Definition _overlaps_in_plane (target_start target_end item_start item_end : Coordinates3D.t)
    : bool :=
  let width_overlap :=
    negb (Qle_bool (Coordinates3D.width target_end) (Coordinates3D.width item_start) ||
          Qle_bool (Coordinates3D.width item_end) (Coordinates3D.width target_start)) in
  let height_overlap :=
    negb (Qle_bool (Coordinates3D.height target_end) (Coordinates3D.height item_start) ||
          Qle_bool (Coordinates3D.height item_end) (Coordinates3D.height target_start)) in
  width_overlap && height_overlap.

(** The body of the loop over [placed_items.values()]: does [item] go into
    [blocking_items]? *)
Definition is_blocking (target_item : Item.t) (target_pos : Position) (item : Item.t) : bool :=
  bool_decide (Item.containerId item = Item.containerId target_item) &&
  negb (String.eqb (Item.itemId item) (Item.itemId target_item)) &&
  match Item.position item with
  | None => false
  | Some pos =>
      (* item_end.depth > target_start.depth *)
      Qlt_bool (Coordinates3D.depth (startCoordinates target_pos))
               (Coordinates3D.depth (endCoordinates pos)) &&
      _overlaps_in_plane (startCoordinates target_pos) (endCoordinates target_pos)
                         (startCoordinates pos) (endCoordinates pos)
  end.

(** Sort key of the blocking list: the item's start depth.  Only positioned
    items reach the sort. *)
Definition start_depth (item : Item.t) : Q :=
  match Item.position item with
  | Some pos => Coordinates3D.depth (startCoordinates pos)
  | None => 0
  end.

Definition _get_blocking_items (target_item : Item.t) (placed_items : odict Item.t)
    : list Item.t :=
  if Item.not_placed target_item then []
  else match Item.position target_item with
       | None => []
       | Some target_pos =>
           sort_by_key start_depth
             (filter (is_blocking target_item target_pos) (odict_values placed_items))
       end.

Definition calculate_retrieval_steps (target_item : Item.t) (placed_items : odict Item.t)
    (containers : gmap string Container.t) : nat :=
  if Item.not_placed target_item then 0%nat
  else match Item.containerId target_item with
       | None => 0%nat
       | Some cid =>
           match containers !! cid with
           | None => 0%nat
           | Some _ => length (_get_blocking_items target_item placed_items)
           end
       end.

(** Number a list of (action, item) pairs consecutively from [start]. *)
Fixpoint number_steps (start : nat) (l : list (action * Item.t)) : list RetrievalStep :=
  match l with
  | [] => []
  | (a, it) :: l' =>
      mk_step start a (Item.itemId it) (Item.name it) :: number_steps (S start) l'
  end.

Definition get_retrieval_steps (target_item : Item.t) (placed_items : odict Item.t)
    : list RetrievalStep :=
  if Item.not_placed target_item then []
  else
    let blocking_items := _get_blocking_items target_item placed_items in
    number_steps 1
      (map (pair remove) blocking_items ++
       [(retrieve, target_item)] ++
       map (pair placeBack) (reverse blocking_items)).

Section Retrieval.
Variable fromisoformat : string -> option datetime.

(** [simulate_retrieval]; [current_date] is the value of [datetime.now()]. *)
Definition simulate_retrieval (item_id user_id : string) (placed_items : odict Item.t)
    (current_date : datetime) : RetrievalOutcome :=
  match odict_get item_id placed_items with
  | None =>
      mk_outcome false ("Item " ++ item_id ++ " not found") None placed_items
  | Some item =>
      if Item.not_placed item then
        mk_outcome false ("Item " ++ item_id ++ " is not placed in any container")
                   None placed_items
      else if Item.is_expired fromisoformat item current_date then
        mk_outcome false ("Item " ++ item_id ++ " is expired") None placed_items
      else if Item.is_depleted item then
        mk_outcome false ("Item " ++ item_id ++ " has no remaining uses") None placed_items
      else
        let item' := Item.set_currentUses (Item.currentUses item + 1)%Z item in
        mk_outcome true "Item retrieved successfully" (Some item')
                   (odict_set item_id item' placed_items)
  end.
End Retrieval.
End RetrievalEngine.

(** ** backend/engines/waste_engine.py *)

Record WasteInfo := mk_waste {
  waste_itemId : string;
  waste_name : string;
  waste_reason : string;
  waste_containerId : option string;
  waste_position : option Position
}.

Record ReturnPlanStep := mk_plan_step {
  plan_step : nat;
  plan_itemId : string;
  plan_itemName : string;
  plan_fromContainer : option string;
  plan_toContainer : string
}.

Record ReturnItem := mk_return_item {
  ret_itemId : string;
  ret_name : string;
  ret_reason : string
}.

Record ReturnManifest := mk_manifest {
  undockingContainerId : string;
  undockingDate : datetime;
  returnItems : list ReturnItem;
  totalVolume : Q;
  totalWeight : Q
}.

Record ReturnPlan := mk_return_plan {
  returnPlan : list ReturnPlanStep;
  retrievalSteps : list RetrievalStep;
  returnManifest : ReturnManifest
}.

(** One entry of [prioritized_waste]. *)
Record WasteData := mk_waste_data {
  wd_item : Item.t;
  wd_waste_info : WasteInfo;
  wd_retrieval_steps : nat;
  wd_priority_score : Q
}.

(** The local variables of the selection loop of [calculate_return_plan]. *)
Record Selection := mk_selection {
  sel_return_plan : list ReturnPlanStep;
  sel_return_items : list ReturnItem;
  sel_total_weight : Q;
  sel_total_volume : Q;
  sel_step_counter : nat
}.

(** Outcome of [execute_undocking]: the returned pair and both dictionaries
    after the call. *)
Record UndockingOutcome := mk_undocking {
  undock_success : bool;
  items_removed : nat;
  items_after : odict Item.t;
  containers_after : gmap string Container.t
}.

Module WasteEngine.

(** [dict[key]], raising [KeyError] on a missing key. *)
Definition getitem {V} (d : odict V) (k : string) : result V :=
  match odict_get k d with
  | Some v => Ok v
  | None => Raise KeyError
  end.

Fixpoint mapM {A B} (f : A -> result B) (l : list A) : result (list B) :=
  match l with
  | [] => Ok []
  | a :: l' => let! b := f a in let! bs := mapM f l' in Ok (b :: bs)
  end.

Section Waste.
Variable fromisoformat : string -> option datetime.

(** The loop body of [identify_waste_items] for one item. *)
Definition waste_entry (current_date : datetime) (item : Item.t) : option WasteInfo :=
  if Item.not_placed item then None
  else
    let reason :=
      if Item.is_expired fromisoformat item current_date then Some "Expired"
      else if Item.is_depleted item then Some "Out of Uses"
      else None in
    match reason with
    | Some r =>
        Some (mk_waste (Item.itemId item) (Item.name item) r
                       (Item.containerId item) (Item.position item))
    | None => None
    end.

Definition identify_waste_items (placed_items : odict Item.t) (current_date : datetime)
    : list WasteInfo :=
  omap (waste_entry current_date) (odict_values placed_items).

Definition prioritize (placed_items : odict Item.t) (containers : gmap string Container.t)
    (waste_item_info : WasteInfo) : result WasteData :=
  let! item := getitem placed_items (waste_itemId waste_item_info) in
  let retrieval_steps :=
    RetrievalEngine.calculate_retrieval_steps item placed_items containers in
  let priority_score :=
    (inject_Z (Z.of_nat retrieval_steps) - inject_Z (Item.priority item) * (1 # 10))%Q in
  Ok (mk_waste_data item waste_item_info retrieval_steps priority_score).

(** One iteration of the selection loop. *)
Definition select_step (undocking_container_id : string) (max_weight available_volume : Q)
    (st : Selection) (waste_data : WasteData) : Selection :=
  let item := wd_item waste_data in
  if Qlt_bool max_weight (sel_total_weight st + Item.mass item) then st
  else
    let item_volume := Item.get_volume item in
    if Qlt_bool available_volume (sel_total_volume st + item_volume) then st
    else
      mk_selection
        (sel_return_plan st ++
         [mk_plan_step (sel_step_counter st) (Item.itemId item) (Item.name item)
                       (Item.containerId item) undocking_container_id])
        (sel_return_items st ++
         [mk_return_item (Item.itemId item) (Item.name item)
                         (waste_reason (wd_waste_info waste_data))])
        (sel_total_weight st + Item.mass item)%Q
        (sel_total_volume st + item_volume)%Q
        (S (sel_step_counter st)).

Definition initial_selection : Selection := mk_selection [] [] 0%Q 0%Q 1%nat.

(** Renumber the concatenated per-item retrieval steps from 1. *)
Fixpoint renumber (counter : nat) (steps : list RetrievalStep) : list RetrievalStep :=
  match steps with
  | [] => []
  | s :: steps' =>
      mk_step counter (step_action s) (step_itemId s) (step_itemName s)
      :: renumber (S counter) steps'
  end.

Definition calculate_return_plan (undocking_container_id : string) (max_weight : Q)
    (placed_items : odict Item.t) (containers : gmap string Container.t)
    (current_date : datetime) : result ReturnPlan :=
  let waste_items := identify_waste_items placed_items current_date in
  match waste_items with
  | [] =>
      Ok (mk_return_plan [] []
            (mk_manifest undocking_container_id current_date [] 0%Q 0%Q))
  | _ :: _ =>
      match containers !! undocking_container_id with
      | None => Raise ValueError
      | Some undocking_container =>
          let! prioritized_waste := mapM (prioritize placed_items containers) waste_items in
          let prioritized_waste := sort_by_key wd_priority_score prioritized_waste in
          let available_volume :=
            Container.get_available_volume undocking_container placed_items in
          let sel :=
            foldl (select_step undocking_container_id max_weight available_volume)
                  initial_selection prioritized_waste in
          let! per_item :=
            mapM (fun plan_item =>
                    let! item := getitem placed_items (plan_itemId plan_item) in
                    Ok (RetrievalEngine.get_retrieval_steps item placed_items))
                 (sel_return_plan sel) in
          Ok (mk_return_plan (sel_return_plan sel)
                (renumber 1 (concat per_item))
                (mk_manifest undocking_container_id current_date
                             (sel_return_items sel)
                             (sel_total_volume sel) (sel_total_weight sel)))
      end
  end.
End Waste.

Definition execute_undocking (undocking_container_id : string)
    (placed_items : odict Item.t) (containers : gmap string Container.t)
    : UndockingOutcome :=
  match containers !! undocking_container_id with
  | None => mk_undocking false 0 placed_items containers
  | Some _ =>
      let items_to_remove :=
        map fst (filter (fun kv => bool_decide (Item.containerId (snd kv) =
                                                 Some undocking_container_id))
                        placed_items) in
      let placed_items' :=
        foldl (fun d item_id =>
                 if bool_decide (is_Some (odict_get item_id d))
                 then odict_del item_id d else d)
              placed_items items_to_remove in
      mk_undocking true (length items_to_remove) placed_items'
                   (delete undocking_container_id containers)
  end.
End WasteEngine.

(** ** backend/engines/advanced_placement_engine.py: priority calculator *)

Module PriorityCalculator.

(** The attributes an [Item] instance has: the declared model fields. *)
Definition item_fields : list string :=
  ["itemId"; "name"; "width"; "depth"; "height"; "priority"; "preferredZone";
   "mass"; "expiryDate"; "usageLimit"; "containerId"; "position";
   "currentUses"; "placementTimestamp"].

Definition hasattr (attr : string) : bool := bool_decide (attr ∈ item_fields).

(** [getattr(item, attr, default)] for the integer attributes. *)
Definition getattr_int (item : Item.t) (attr : string) (default : Z) : Z :=
  if String.eqb attr "priority" then Item.priority item
  else if String.eqb attr "usageLimit" then Item.usageLimit item
  else if String.eqb attr "currentUses" then Item.currentUses item
  else default.

(** [s.replace('Z', '+00:00')]. *)
Fixpoint replace_Z (s : string) : string :=
  match s with
  | EmptyString => EmptyString
  | String c s' =>
      if Ascii.eqb c "Z"%char then "+00:00" ++ replace_Z s'
      else String c (replace_Z s')
  end.

Definition min_Q (a b : Q) : Q := if Qle_bool a b then a else b.

Section Priority.
Variable fromisoformat : string -> option datetime.

Definition expiry_score (item : Item.t) (current_time : datetime) : Q :=
  if hasattr "expiryDate" && truthy_str (Item.expiryDate item) then
    match Item.expiryDate item with
    | None => 0
    | Some s =>
        match fromisoformat (replace_Z s) with
        | None => 0                                   (* ValueError *)
        | Some expiry_date =>
            match dt_sub expiry_date current_time with
            | Raise _ => 0                            (* TypeError *)
            | Ok delta =>
                let days_to_expiry := timedelta_days delta in
                if (days_to_expiry <=? 0)%Z then 30
                else if (days_to_expiry <=? 7)%Z then 25
                else if (days_to_expiry <=? 30)%Z then 15
                else if (days_to_expiry <=? 90)%Z then 5
                else 0
            end
        end
    end
  else 0.

Definition usage_score (item : Item.t) : Q :=
  if hasattr "usageLimit" && hasattr "usageCount" then
    if (0 <? Item.usageLimit item)%Z then
      let remaining_uses := (Item.usageLimit item - getattr_int item "usageCount" 0)%Z in
      let usage_ratio := (inject_Z remaining_uses / inject_Z (Item.usageLimit item))%Q in
      if (remaining_uses <=? 0)%Z then 20
      else if Qle_bool usage_ratio (1 # 10) then 15
      else if Qle_bool usage_ratio (1 # 4) then 10
      else if Qle_bool usage_ratio (1 # 2) then 5
      else 0
    else 0
  else 0.

Definition zone_score (item : Item.t) : Q :=
  if (80 <=? Item.priority item)%Z then 10
  else if (60 <=? Item.priority item)%Z then 5
  else 0.

Definition calculate_composite_priority (item : Item.t) (current_time : datetime) : Q :=
  let base_priority := (inject_Z (Item.priority item) / 100 * 40)%Q in
  let total_score :=
    (base_priority + expiry_score item current_time + usage_score item + zone_score item)%Q in
  min_Q total_score 100.
End Priority.

(** The usage term as the design document words it: breakpoints on the
    remaining uses [usageLimit - currentUses]. *)
Definition usage_score_spec (item : Item.t) : Q :=
  let remaining := (Item.usageLimit item - Item.currentUses item)%Z in
  let ratio := (inject_Z remaining / inject_Z (Item.usageLimit item))%Q in
  if (remaining <=? 0)%Z then 20
  else if Qle_bool ratio (1 # 10) then 15
  else if Qle_bool ratio (1 # 4) then 10
  else if Qle_bool ratio (1 # 2) then 5
  else 0.
End PriorityCalculator.

(** ** A date-only reading of [datetime.fromisoformat]

    The concrete examples need a parser.  [fromisoformat_date] accepts
    exactly the strings [YYYY-MM-DD] that denote a calendar date, and
    returns midnight of that day as a naive [datetime]; on those strings
    it agrees with Python's [datetime.fromisoformat], which accepts more
    formats. *)

Definition digit_of (c : ascii) : option Z :=
  let n := Z.of_N (Ascii.N_of_ascii c) in
  if (48 <=? n)%Z && (n <=? 57)%Z then Some (n - 48)%Z else None.

Fixpoint number_of (cs : list ascii) (acc : Z) : option Z :=
  match cs with
  | [] => Some acc
  | c :: cs' =>
      match digit_of c with
      | Some d => number_of cs' (10 * acc + d)%Z
      | None => None
      end
  end.

Definition is_leap (y : Z) : bool :=
  ((y mod 4 =? 0) && negb (y mod 100 =? 0) || (y mod 400 =? 0))%Z.

Definition days_in_month (y m : Z) : Z :=
  if (m =? 2)%Z then (if is_leap y then 29 else 28)%Z
  else if ((m =? 4) || (m =? 6) || (m =? 9) || (m =? 11))%Z then 30%Z
  else 31%Z.

(** Days from 1970-01-01 to the civil date [y-m-d]. *)
Definition days_from_civil (y m d : Z) : Z :=
  let y' := (if (m <=? 2)%Z then y - 1 else y)%Z in
  let era := (y' / 400)%Z in
  let yoe := (y' - era * 400)%Z in
  let mp := (if (2 <? m)%Z then m - 3 else m + 9)%Z in
  let doy := ((153 * mp + 2) / 5 + d - 1)%Z in
  let doe := (yoe * 365 + yoe / 4 - yoe / 100 + doy)%Z in
  (era * 146097 + doe - 719468)%Z.

Definition fromisoformat_date (s : string) : option datetime :=
  match list_ascii_of_string s with
  | [y1; y2; y3; y4; dash1; m1; m2; dash2; d1; d2] =>
      if Ascii.eqb dash1 "-"%char && Ascii.eqb dash2 "-"%char then
        match number_of [y1; y2; y3; y4] 0, number_of [m1; m2] 0, number_of [d1; d2] 0 with
        | Some y, Some m, Some d =>
            if ((1 <=? y) && (1 <=? m) && (m <=? 12) && (1 <=? d) &&
                (d <=? days_in_month y m))%Z
            then Some (naive (days_from_civil y m d * microseconds_per_day))
            else None
        | _, _, _ => None
        end
      else None
  | _ => None
  end.

(** ** Date-times with a UTC offset

    [fromisoformat_datetime] reads, besides the dates of
    [fromisoformat_date], the strings [YYYY-MM-DDTHH:MM:SS+HH:MM] and
    [YYYY-MM-DDTHH:MM:SS-HH:MM], which Python's [datetime.fromisoformat]
    returns as timezone-aware datetimes. *)

Definition two_digits (s : string) (pos : nat) : option Z :=
  match String.get pos s, String.get (S pos) s with
  | Some a, Some b => number_of [a; b] 0
  | _, _ => None
  end.

Definition char_is (s : string) (pos : nat) (c : ascii) : bool :=
  match String.get pos s with
  | Some a => Ascii.eqb a c
  | None => false
  end.

Definition utc_offset_sign (s : string) (pos : nat) : option Z :=
  if char_is s pos "+" then Some 1%Z
  else if char_is s pos "-" then Some (-1)%Z
  else None.

Definition fromisoformat_datetime (s : string) : option datetime :=
  if Nat.eqb (String.length s) 25 then
    if char_is s 10 "T" && char_is s 13 ":" && char_is s 16 ":" && char_is s 22 ":" then
      match fromisoformat_date (substring 0 10 s),
            two_digits s 11, two_digits s 14, two_digits s 17,
            utc_offset_sign s 19, two_digits s 20, two_digits s 23 with
      | Some day, Some hh, Some mm, Some ss, Some sign, Some oh, Some om =>
          if ((hh <? 24) && (mm <? 60) && (ss <? 60) && (oh <? 24) && (om <? 60))%Z
          then Some (mk_datetime
                       (dt_wall day + (hh * 3600 + mm * 60 + ss) * 1000000)%Z
                       (Some (sign * (oh * 3600 + om * 60) * 1000000)%Z))
          else None
      | _, _, _, _, _, _, _ => None
      end
    else None
  else fromisoformat_date s.

(** ** Spatial primitives of backend/utils/coordinates.py *)

Module BoundingBox.
Record t := mk {
  start : Coordinates3D.t;
  end_ : Coordinates3D.t
}.

(** Default tolerance [epsilon = 1e-5]. *)
Definition epsilon : Q := 1 # 100000.

Definition overlaps_with (self other : t) (eps : Q) : bool :=
  negb (Qle_bool (Coordinates3D.width (end_ self)) (Coordinates3D.width (start other) + eps) ||
        Qle_bool (Coordinates3D.width (end_ other) - eps) (Coordinates3D.width (start self)) ||
        Qle_bool (Coordinates3D.depth (end_ self)) (Coordinates3D.depth (start other) + eps) ||
        Qle_bool (Coordinates3D.depth (end_ other) - eps) (Coordinates3D.depth (start self)) ||
        Qle_bool (Coordinates3D.height (end_ self)) (Coordinates3D.height (start other) + eps) ||
        Qle_bool (Coordinates3D.height (end_ other) - eps) (Coordinates3D.height (start self))).

Definition is_within_container (self : t) (container_width container_depth container_height : Q)
    (eps : Q) : bool :=
  Qle_bool (- eps) (Coordinates3D.width (start self)) &&
  Qle_bool (Coordinates3D.width (end_ self)) (container_width + eps) &&
  Qle_bool (- eps) (Coordinates3D.depth (start self)) &&
  Qle_bool (Coordinates3D.depth (end_ self)) (container_depth + eps) &&
  Qle_bool (- eps) (Coordinates3D.height (start self)) &&
  Qle_bool (Coordinates3D.height (end_ self)) (container_height + eps).
End BoundingBox.

(** [PlacedItem.get_position], read back as a bounding box: x is the width
    axis, y the depth axis, z the height axis. *)
Definition bounding_box_of (p : PlacedItem.t) : BoundingBox.t :=
  BoundingBox.mk
    (Coordinates3D.mk (PlacedItem.x p) (PlacedItem.y p) (PlacedItem.z p))
    (Coordinates3D.mk (PlacedItem.x p + PlacedItem.width p)
                      (PlacedItem.y p + PlacedItem.depth p)
                      (PlacedItem.z p + PlacedItem.height p)).

(** ** Invariants of a container state *)

(** No two distinct placed items collide, for the engine's own test and for
    the tolerant test of the spatial primitives. *)
Definition no_overlap_inv (s : ContainerState.t) : Prop :=
  forall (i j : nat) (p q : PlacedItem.t),
    i <> j ->
    ContainerState.placed_items s !! i = Some p ->
    ContainerState.placed_items s !! j = Some q ->
    aabb_overlap (PlacedItem.get_aabb p) (PlacedItem.get_aabb q) = false /\
    BoundingBox.overlaps_with (bounding_box_of p) (bounding_box_of q)
                              BoundingBox.epsilon = false.

(** A box lies inside the container on the three axes. *)
Definition aabb_within (s : ContainerState.t) (b : AABB) : Prop :=
  (0 <= min_x b /\ max_x b <= ContainerState.width s /\
   0 <= min_y b /\ max_y b <= ContainerState.depth s /\
   0 <= min_z b /\ max_z b <= ContainerState.height s)%Q.

Definition containment_inv (s : ContainerState.t) : Prop :=
  forall p : PlacedItem.t,
    p ∈ ContainerState.placed_items s ->
    aabb_within s (PlacedItem.get_aabb p) /\
    BoundingBox.is_within_container (bounding_box_of p)
      (ContainerState.width s) (ContainerState.depth s) (ContainerState.height s)
      BoundingBox.epsilon = true.

(** [place_item] answers what [can_place_item] answers, changes nothing on
    a refusal and appends exactly the requested box on an acceptance. *)
Definition commits_only_accepted : Prop :=
  forall (s : ContainerState.t) (c : place_call),
    let accepted :=
      ContainerState.can_place_item s (call_x c) (call_y c) (call_z c)
        (call_width c) (call_depth c) (call_height c) in
    fst (do_call s c) = accepted /\
    (accepted = false -> snd (do_call s c) = s) /\
    (accepted = true ->
     ContainerState.placed_items (snd (do_call s c)) =
     (ContainerState.placed_items s ++
       [PlacedItem.mk (call_item_id c) (call_x c) (call_y c) (call_z c)
          (call_width c) (call_depth c) (call_height c)
          (call_original_dims c) (call_priority c)])%list).








(** ** Expiry and placement in the words of the design document *)





(** ** Sample data for the concrete checks *)

(** An empty 100 x 100 x 100 container and a 10 x 10 x 10 item put in its
    origin corner. *)
Definition fresh_cube : ContainerState.t :=
  ContainerState.init "contA" 100 100 100 "Lab".


(** Two 60 x 60 x 60 items for the same container, the second one at the
    far corner. *)
Definition big_call_1 : place_call :=
  mk_call "000002" 0 0 0 60 60 60 (60, 60, 60)%Q 50.

Definition big_call_2 : place_call :=
  mk_call "000003" 40 40 0 60 60 60 (60, 60, 60)%Q 50.

(** A 10 x 10 x 10 item of mass 1 with the given identifier, priority,
    expiry date, usage limit and counter, container and position. *)
Definition sample_item (id : string) (prio : Z) (expiry : option string)
    (limit uses : Z) (cid : option string) (pos : option Position) : Item.t :=
  Item.mk id ("item " ++ id) 10 10 10 prio "Lab" 1 expiry limit cid pos uses None.

(** The position dictionary of a box given by its start and end corners
    (width, depth, height). *)
Definition box_position (w0 d0 h0 w1 d1 h1 : Q) : Position :=
  mk_position (Coordinates3D.mk w0 d0 h0) (Coordinates3D.mk w1 d1 h1).

(** Three items stacked along the depth axis of container [contA], with the
    same footprint on the open face: [item_front] next to the opening,
    [item_middle] behind it, [item_back] behind both. *)
Definition item_front : Item.t :=
  sample_item "000011" 50 None 100 0 (Some "contA") (Some (box_position 0 0 0 10 10 10)).

Definition item_middle : Item.t :=
  sample_item "000012" 50 None 100 0 (Some "contA") (Some (box_position 0 10 0 10 20 10)).

Definition item_back : Item.t :=
  sample_item "000013" 50 None 100 0 (Some "contA") (Some (box_position 0 20 0 10 30 10)).

Definition depth_stack : odict Item.t :=
  [("000011", item_front); ("000012", item_middle); ("000013", item_back)].

(** "B blocks A" in the words of the design document: B starts strictly
    closer to the opening and the two projections on the width-height plane
    overlap. *)
Definition blocks_spec (target_pos item_pos : Position) : Prop :=
  (Coordinates3D.depth (startCoordinates item_pos) <
   Coordinates3D.depth (startCoordinates target_pos))%Q /\
  RetrievalEngine._overlaps_in_plane
    (startCoordinates target_pos) (endCoordinates target_pos)
    (startCoordinates item_pos) (endCoordinates item_pos) = true.

(** The composite score in the words of the design document: like
    [calculate_composite_priority], with the usage term computed from the
    remaining uses [usageLimit - currentUses]. *)
Definition composite_score_spec (fromisoformat : string -> option datetime)
    (item : Item.t) (now : datetime) : Q :=
  PriorityCalculator.min_Q
    (inject_Z (Item.priority item) / 100 * 40 +
     PriorityCalculator.expiry_score fromisoformat item now +
     PriorityCalculator.usage_score_spec item +
     PriorityCalculator.zone_score item)%Q
    100.

(** The current date of the examples: 2025-03-01, midnight. *)
Definition sample_now : datetime := naive (20148 * microseconds_per_day).

(** A placed item of priority 50 without expiry date whose 10 uses are all
    spent. *)
Definition spent_item : Item.t :=
  sample_item "000020" 50 None 10 10 (Some "contA") (Some (box_position 0 0 0 10 10 10)).

(** A placed item whose expiry date, 2025-02-28, is one day before
    [sample_now], with none of its 10 uses spent. *)
Definition expired_item : Item.t :=
  sample_item "000030" 50 (Some "2025-02-28") 10 0 (Some "contA")
              (Some (box_position 20 0 0 30 10 10)).

(** A placed item whose expiry date is not a date. *)
Definition undated_item : Item.t :=
  sample_item "000040" 50 (Some "next week") 10 0 (Some "contA")
              (Some (box_position 40 0 0 50 10 10)).




(** The container of the samples and the container dictionary holding it
    and one more container. *)
Definition sample_container : Container.t :=
  Container.mk "contA" "Lab" 100 100 100 ["000011"; "000012"; "000013"].

Definition other_container : Container.t :=
  Container.mk "contB" "Storage" 100 100 100 [].

Definition sample_containers : gmap string Container.t :=
  <["contA" := sample_container]> (<["contB" := other_container]> ∅).

(** An item placed in the other container. *)
Definition item_elsewhere : Item.t :=
  sample_item "000050" 50 None 100 0 (Some "contB") (Some (box_position 0 0 0 10 10 10)).

Definition two_container_store : odict Item.t :=
  [("000011", item_front); ("000050", item_elsewhere); ("000012", item_middle)].

(** The entry [execute_undocking] leaves under a key: entries assigned to
    the undocked container go, the others stay as they are. *)
Definition after_undocking (undocking_container_id : string) (entry : option Item.t)
    : option Item.t :=
  match entry with
  | Some item =>
      if bool_decide (Item.containerId item = Some undocking_container_id)
      then None else Some item
  | None => None
  end.

(** Sum of a list of rationals. *)
Definition sum_Q (l : list Q) : Q := foldr Qplus 0%Q l.

(** Two placed waste items for the return plan: [spent_item] (depleted) and
    [expired_item], each of mass 1 and volume 1000. *)
Definition waste_store : odict Item.t :=
  [("000020", spent_item); ("000030", expired_item); ("000050", item_elsewhere)].

(** The plan computed for [waste_store] with a weight limit of 1: only the
    first waste item fits. *)
Definition sample_plan : ReturnPlan :=
  mk_return_plan
    [mk_plan_step 1 "000020" "item 000020" (Some "contA") "contA"]
    [mk_step 1 retrieve "000020" "item 000020"]
    (mk_manifest "contA" sample_now
       [mk_return_item "000020" "item 000020" "Out of Uses"] 1000 1).

(** A 10 x 10 x 10 container that lists one item whose stored position is a
    20 x 20 x 20 box, so that its available volume is negative; the item is
    depleted. *)
Definition small_container : Container.t :=
  Container.mk "contC" "Lab" 10 10 10 ["000060"].

Definition bulky_item : Item.t :=
  sample_item "000060" 50 None 10 10 (Some "contC") (Some (box_position 0 0 0 20 20 20)).

Definition bulky_store : odict Item.t := [("000060", bulky_item)].

Definition small_containers : gmap string Container.t :=
  <["contC" := small_container]> ∅.

(** * Further functions of the same files *)

(** ** Lists in key order, numbered steps *)

(** The elements of [l] come in ascending order of [key]. *)
Definition ascending {A} (key : A -> Q) (l : list A) : Prop :=
  forall (i j : nat) (a b : A),
    (i < j)%nat -> l !! i = Some a -> l !! j = Some b -> (key a <= key b)%Q.

Definition action_eqb (a b : action) : bool :=
  match a, b with
  | remove, remove | retrieve, retrieve | placeBack, placeBack => true
  | _, _ => false
  end.

(** The item ids of the steps of [steps] that carry action [a], in order. *)
Definition ids_with_action (a : action) (steps : list RetrievalStep) : list string :=
  map step_itemId (List.filter (fun s => action_eqb (step_action s) a) steps).

(** A dictionary stores every item under its own [itemId], once: what
    [MemoryStore.add_item] maintains. *)
Definition keyed_by_id (d : odict Item.t) : Prop :=
  NoDup (odict_keys d) /\ forall k it, (k, it) ∈ d -> k = Item.itemId it.

(** ** backend/models/item.py: status *)

Inductive ItemStatus := ACTIVE | EXPIRED | DEPLETED | WASTE.

Module ItemOps.
Section Status.
Variable fromisoformat : string -> option datetime.

Definition get_status (i : Item.t) (current_date : datetime) : ItemStatus :=
  if Item.is_expired fromisoformat i current_date then EXPIRED
  else if Item.is_depleted i then DEPLETED
  else ACTIVE.
End Status.
End ItemOps.

(** ** backend/engines/retrieval_engine.py: repeated retrieval *)

Module RetrievalRuns.
Section Runs.
Variable fromisoformat : string -> option datetime.

End Runs.
End RetrievalRuns.

(** ** backend/engines/waste_engine.py: statistics and consolidation *)

Record WasteStatistics := mk_stats {
  totalWasteItems : nat;
  wasteByReason : odict nat;
  wasteByZone : odict nat;
  totalWasteVolume : Q;
  totalWasteMass : Q
}.

Record ConsolidationStep := mk_move {
  move_step : nat;
  move_action : string;
  move_itemId : string;
  move_fromContainer : option string;
  move_toContainer : string
}.

(** The local variables of the loop of [suggest_waste_consolidation]. *)
Record Consolidation := mk_consolidation {
  cons_plan : list ConsolidationStep;
  cons_step_counter : nat;
  cons_used_volume : Q
}.

Module WasteReports.

(** [d[k] = v]: replace the value of a present key, append a new key. *)
Definition odict_put {V} (k : string) (v : V) (d : odict V) : odict V :=
  match odict_get k d with
  | Some _ => odict_set k v d
  | None => (d ++ [(k, v)])%list
  end.

(** [d[k] += 1] for a present key; [KeyError] otherwise. *)
Definition odict_incr (k : string) (d : odict nat) : result (odict nat) :=
  match odict_get k d with
  | Some n => Ok (odict_set k (S n) d)
  | None => Raise KeyError
  end.

(** One iteration of the loop of [get_waste_statistics].  The waste
    entries carry no ["zone"] key, so [waste_item_info.get("zone",
    "Unknown")] is ["Unknown"]. *)
Definition stats_step (placed_items : odict Item.t) (stats : WasteStatistics)
    (waste_item_info : WasteInfo) : result WasteStatistics :=
  let! item := WasteEngine.getitem placed_items (waste_itemId waste_item_info) in
  let reason := waste_reason waste_item_info in
  let! by_reason :=
    (if bool_decide (is_Some (odict_get reason (wasteByReason stats)))
     then odict_incr reason (wasteByReason stats)
     else Ok (wasteByReason stats)) in
  let! by_zone :=
    (if truthy_str (Item.containerId item) then
       let zone := "Unknown" in
       let by_zone0 :=
         if bool_decide (is_Some (odict_get zone (wasteByZone stats)))
         then wasteByZone stats
         else odict_put zone 0%nat (wasteByZone stats) in
       odict_incr zone by_zone0
     else Ok (wasteByZone stats)) in
  Ok (mk_stats (totalWasteItems stats) by_reason by_zone
        (totalWasteVolume stats + Item.get_volume item)%Q
        (totalWasteMass stats + Item.mass item)%Q).

Fixpoint foldM {A B} (f : B -> A -> result B) (b : B) (l : list A) : result B :=
  match l with
  | [] => Ok b
  | a :: l' => let! b' := f b a in foldM f b' l'
  end.

Section Reports.
Variable fromisoformat : string -> option datetime.

Definition get_waste_statistics (placed_items : odict Item.t) (current_date : datetime)
    : result WasteStatistics :=
  let waste_items := WasteEngine.identify_waste_items fromisoformat placed_items current_date in
  foldM (stats_step placed_items)
        (mk_stats (length waste_items) [("Expired", 0%nat); ("Out of Uses", 0%nat)] [] 0 0)
        waste_items.

(** One iteration of the loop of [suggest_waste_consolidation]. *)
Definition consolidation_step (placed_items : odict Item.t) (target_container_id : string)
    (available_volume : Q) (st : Consolidation) (waste_item_info : WasteInfo)
    : result Consolidation :=
  let! item := WasteEngine.getitem placed_items (waste_itemId waste_item_info) in
  let item_volume := Item.get_volume item in
  if Qle_bool (cons_used_volume st + item_volume) available_volume then
    if negb (bool_decide (Item.containerId item = Some target_container_id)) then
      Ok (mk_consolidation
            (cons_plan st ++
             [mk_move (cons_step_counter st) "move" (Item.itemId item)
                      (Item.containerId item) target_container_id])
            (S (cons_step_counter st))
            (cons_used_volume st + item_volume)%Q)
    else Ok st
  else Ok st.

(** [suggest_waste_consolidation]; [current_date] is the value of
    [datetime.now()] that [identify_waste_items] takes by default. *)
Definition suggest_waste_consolidation (placed_items : odict Item.t)
    (containers : gmap string Container.t) (target_container_id : string)
    (current_date : datetime) : result (list ConsolidationStep) :=
  let waste_items := WasteEngine.identify_waste_items fromisoformat placed_items current_date in
  match waste_items with
  | [] => Ok []
  | _ :: _ =>
      match containers !! target_container_id with
      | None => Ok []
      | Some target_container =>
          let available_volume :=
            Container.get_available_volume target_container placed_items in
          let! st := foldM (consolidation_step placed_items target_container_id
                               available_volume)
                           (mk_consolidation [] 1%nat 0) waste_items in
          Ok (cons_plan st)
      end
  end.
End Reports.
End WasteReports.

(** ** Further sample data *)



(** The reason string [identify_waste_items] gives for a status. *)
Definition reason_of_status (s : ItemStatus) : string :=
  match s with
  | EXPIRED => "Expired"
  | _ => "Out of Uses"
  end.

(** The number of waste entries with a given reason. *)
Definition count_reason (reason : string) (l : list WasteInfo) : nat :=
  length (List.filter (fun info => String.eqb (waste_reason info) reason) l).

(** The statistics of [waste_store] at [sample_now]. *)
Definition sample_statistics : WasteStatistics :=
  mk_stats 2 [("Expired", 1%nat); ("Out of Uses", 1%nat)] [("Unknown", 2%nat)] 2000 2.

(** The consolidation of [waste_store] into [contB]. *)
Definition sample_consolidation : list ConsolidationStep :=
  [mk_move 1 "move" "000020" (Some "contA") "contB";
   mk_move 2 "move" "000030" (Some "contA") "contB"].

(** ** backend/utils/coordinates.py: dictionaries and volume *)

Module CoordinateDicts.
Definition to_dict (c : Coordinates3D.t) : odict Q :=
  [("width", Coordinates3D.width c); ("depth", Coordinates3D.depth c);
   ("height", Coordinates3D.height c)].

Definition from_dict (coord_dict : odict Q) : result Coordinates3D.t :=
  let! w := WasteEngine.getitem coord_dict "width" in
  let! d := WasteEngine.getitem coord_dict "depth" in
  let! h := WasteEngine.getitem coord_dict "height" in
  Ok (Coordinates3D.mk w d h).

(** [BoundingBox.to_position_dict]. *)
Definition to_position_dict (b : BoundingBox.t) : odict (odict Q) :=
  [("startCoordinates", to_dict (BoundingBox.start b));
   ("endCoordinates", to_dict (BoundingBox.end_ b))].

(** Reading a position dictionary the way the retrieval engine does:
    [Coordinates3D.from_dict(position["startCoordinates"])] and the same for
    the end. *)
Definition read_position (position : odict (odict Q)) : result BoundingBox.t :=
  let! s := WasteEngine.getitem position "startCoordinates" in
  let! e := WasteEngine.getitem position "endCoordinates" in
  let! start := from_dict s in
  let! end_ := from_dict e in
  Ok (BoundingBox.mk start end_).
End CoordinateDicts.

(** ** backend/engines/advanced_placement_engine.py: free spaces *)

Module FreeSpaceOps.
End FreeSpaceOps.

(** ** Python numbers *)

(** [max(a, b)]: the first argument wins a tie. *)
Definition py_max (a b : Q) : Q := if Qlt_bool a b then b else a.

(** [int(q)]: truncation towards zero. *)
Definition py_int (q : Q) : Z := Z.quot (Qnum q) (Zpos (Qden q)).

(** [range(0, stop, step)] for a positive [step]. *)
Fixpoint range_from (fuel : nat) (cur stop step : Z) : list Z :=
  match fuel with
  | O => []
  | S fuel' => if (cur <? stop)%Z then cur :: range_from fuel' (cur + step) stop step else []
  end.

Definition py_range (stop step : Z) : list Z := range_from (Z.to_nat stop) 0 stop step.

(** [max(iterable, key=...)] of a non-empty list: the first element with
    the largest key. *)
Definition max_by_key {A} (key : A -> Q) (first : A) (rest : list A) : A :=
  foldl (fun best x => if Qlt_bool (key best) (key x) then x else best) first rest.

(** ** backend/engines/advanced_placement_engine.py: more of the container state *)

(** What a grid scan hands back: the position it found, or the number of
    grid points checked so far. *)
Inductive scan_result :=
| Found (x y z : Q)
| Checked (grid_points_checked : nat).

(** A step of [ContainerState.get_retrieval_steps]. *)
Record StateStep := mk_state_step {
  sstep : nat;
  sstep_action : action;
  sstep_itemId : string
}.

Module ContainerStateOps.

Definition get_largest_free_space (s : ContainerState.t) : option FreeSpace.t :=
  match ContainerState.free_spaces s with
  | [] => None
  | f :: fs => Some (max_by_key FreeSpace.volume f fs)
  end.

Definition max_grid_points : nat := 100.

(** The innermost loop of the grid search, over [x]. *)
Fixpoint scan_x (s : ContainerState.t) (width depth height : Q) (z : Q) (y : Z)
    (xs : list Z) (grid_points_checked : nat) : scan_result :=
  match xs with
  | [] => Checked grid_points_checked
  | x :: xs' =>
      let grid_points_checked := S grid_points_checked in
      if (max_grid_points <? grid_points_checked)%nat then Checked grid_points_checked
      else if ContainerState.can_place_item s (inject_Z x) (inject_Z y) z width depth height
      then Found (inject_Z x) (inject_Z y) z
      else scan_x s width depth height z y xs' grid_points_checked
  end.

(** The loop over [y]. *)
Fixpoint scan_y (s : ContainerState.t) (width depth height : Q) (z : Q)
    (ys xs : list Z) (grid_points_checked : nat) : scan_result :=
  match ys with
  | [] => Checked grid_points_checked
  | y :: ys' =>
      if (max_grid_points <=? grid_points_checked)%nat then Checked grid_points_checked
      else match scan_x s width depth height z y xs grid_points_checked with
           | Found x' y' z' => Found x' y' z'
           | Checked n => scan_y s width depth height z ys' xs n
           end
  end.

(** The loop over [z]. *)
Fixpoint scan_z (s : ContainerState.t) (width depth height : Q)
    (zs : list Q) (ys xs : list Z) (grid_points_checked : nat) : scan_result :=
  match zs with
  | [] => Checked grid_points_checked
  | z :: zs' =>
      if (max_grid_points <=? grid_points_checked)%nat then Checked grid_points_checked
      else match scan_y s width depth height z ys xs grid_points_checked with
           | Found x' y' z' => Found x' y' z'
           | Checked n => scan_z s width depth height zs' ys xs n
           end
  end.

(** First element of a list of candidates that passes a test. *)
Fixpoint first_position (test : Q * Q * Q -> bool) (candidates : list (Q * Q * Q))
    : option (Q * Q * Q) :=
  match candidates with
  | [] => None
  | c :: cs => if test c then Some c else first_position test cs
  end.

Definition find_position (s : ContainerState.t) (width depth height : Q) (priority : Z)
    : option (Q * Q * Q) :=
  let W := ContainerState.width s in
  let D := ContainerState.depth s in
  let H := ContainerState.height s in
  let corners :=
    [(0, 0, 0); (py_max 0 (W - width), 0, 0); (0, py_max 0 (D - depth), 0);
     (py_max 0 (W - width), py_max 0 (D - depth), 0)]%Q in
  let corner_ok (c : Q * Q * Q) :=
    let '(x, y, z) := c in
    Qle_bool 0 x && Qle_bool 0 y && Qle_bool 0 z &&
    Qle_bool (x + width) W && Qle_bool (y + depth) D && Qle_bool (z + height) H &&
    ContainerState.can_place_item s x y z width depth height in
  match first_position corner_ok corners with
  | Some p => Some p
  | None =>
      let space_ok (c : Q * Q * Q) :=
        let '(x, y, z) := c in
        ContainerState.can_place_item s x y z width depth height in
      let fitting :=
        List.filter (fun space => FreeSpace.can_fit space width depth height)
                    (take 10 (ContainerState.free_spaces s)) in
      match first_position space_ok
              (map (fun space => (FreeSpace.x space, FreeSpace.y space, FreeSpace.z space))
                   fitting) with
      | Some p => Some p
      | None =>
          let step_size := py_max (py_max 10 width) depth in
          let max_x := py_max 0 (W - width) in
          let max_y := py_max 0 (D - depth) in
          let max_z := py_max 0 (H - height) in
          let zs := if Qlt_bool 0 max_z then [0; max_z * (1 # 2); max_z]%Q else [0%Q] in
          let ys := py_range (py_int max_y + 1) (py_int step_size) in
          let xs := py_range (py_int max_x + 1) (py_int step_size) in
          match scan_z s width depth height zs ys xs 0 with
          | Found x y z => Some (x, y, z)
          | Checked _ => None
          end
      end
  end.
End ContainerStateOps.

(** The value of an accumulator that starts at 0 and has the elements of
    [l] added one after the other ([acc += v]). *)
Definition running_sum (l : list Q) : Q := foldl Qplus 0%Q l.

(** Two unit-spaced boxes that share the face [width = 10]. *)
Definition left_box : BoundingBox.t :=
  BoundingBox.mk (Coordinates3D.mk 0 0 0) (Coordinates3D.mk 10 10 10).

Definition right_box : BoundingBox.t :=
  BoundingBox.mk (Coordinates3D.mk 10 0 0) (Coordinates3D.mk 20 10 10).

(** ** backend/engines/advanced_placement_engine.py: retrieval from a state *)

(** [l[i]] for a Python integer index: a negative index counts from the
    end; [None] stands for [IndexError]. *)
Definition py_getitem {A} (l : list A) (i : Z) : option A :=
  let n := Z.of_nat (length l) in
  let j := if (i <? 0)%Z then (i + n)%Z else i in
  if (j <? 0)%Z || (n <=? j)%Z then None else l !! Z.to_nat j.

(** The first placed item with the given id. *)
Fixpoint find_placed (item_id : string) (l : list PlacedItem.t) : option PlacedItem.t :=
  match l with
  | [] => None
  | item :: l' =>
      if String.eqb (PlacedItem.item_id item) item_id then Some item
      else find_placed item_id l'
  end.

Module StateRetrieval.

Definition _boxes_overlap_xy (item1 item2 : PlacedItem.t) : bool :=
  negb (Qle_bool (PlacedItem.x item1 + PlacedItem.width item1) (PlacedItem.x item2) ||
        Qle_bool (PlacedItem.x item2 + PlacedItem.width item2) (PlacedItem.x item1) ||
        Qle_bool (PlacedItem.y item1 + PlacedItem.depth item1) (PlacedItem.y item2) ||
        Qle_bool (PlacedItem.y item2 + PlacedItem.depth item2) (PlacedItem.y item1)).

(** The loop that collects the [remove] steps. *)
Fixpoint remove_loop (items : list PlacedItem.t) (item_id : string)
    (item_to_retrieve : PlacedItem.t) (step_count : nat) : list StateStep :=
  match items with
  | [] => []
  | item :: items' =>
      if String.eqb (PlacedItem.item_id item) item_id
      then remove_loop items' item_id item_to_retrieve step_count
      else if Qlt_bool (PlacedItem.y item) (PlacedItem.y item_to_retrieve) &&
              _boxes_overlap_xy item item_to_retrieve
      then mk_state_step step_count remove (PlacedItem.item_id item)
           :: remove_loop items' item_id item_to_retrieve (S step_count)
      else remove_loop items' item_id item_to_retrieve step_count
  end.

(** The loop [for i in range(len(retrieval_steps) - 1)]: the range is fixed
    when the loop starts, [len(retrieval_steps)] in the body is the current
    length of the growing list. *)
Fixpoint place_back_loop (indices : list nat) (retrieval_steps : list StateStep)
    (step_count : nat) : option (list StateStep) :=
  match indices with
  | [] => Some retrieval_steps
  | i :: indices' =>
      match py_getitem retrieval_steps
              (Z.of_nat (length retrieval_steps) - 2 - Z.of_nat i) with
      | None => None
      | Some blocking_item =>
          if action_eqb (sstep_action blocking_item) remove
          then place_back_loop indices'
                 (retrieval_steps ++
                  [mk_state_step step_count placeBack (sstep_itemId blocking_item)])
                 (S step_count)
          else place_back_loop indices' retrieval_steps step_count
      end
  end.

(** [ContainerState.get_retrieval_steps]; [None] stands for [IndexError]. *)
Definition get_retrieval_steps (s : ContainerState.t) (item_id : string)
    : option (list StateStep) :=
  match find_placed item_id (ContainerState.placed_items s) with
  | None => Some []
  | Some item_to_retrieve =>
      let removes :=
        remove_loop (ContainerState.placed_items s) item_id item_to_retrieve 1 in
      let step_count := S (length removes) in
      let retrieval_steps := (removes ++ [mk_state_step step_count retrieve item_id])%list in
      place_back_loop (seq 0 (length retrieval_steps - 1)) retrieval_steps (S step_count)
  end.
End StateRetrieval.

Module AccessibilityTracker.

(** The test of the counting loop: [other] is in front of [target] and the
    two overlap on the x and z axes. *)
Definition blocks_access (other target : PlacedItem.t) : bool :=
  let other_bounds := PlacedItem.get_aabb other in
  let target_bounds := PlacedItem.get_aabb target in
  Qlt_bool (min_y other_bounds) (min_y target_bounds) &&
  Qlt_bool (min_x target_bounds) (max_x other_bounds) &&
  Qlt_bool (min_x other_bounds) (max_x target_bounds) &&
  Qlt_bool (min_z target_bounds) (max_z other_bounds) &&
  Qlt_bool (min_z other_bounds) (max_z target_bounds).

(** [calculate_retrieval_steps]; [None] stands for [float('inf')].  The
    write to the tracker's cache is not modelled. *)
Definition calculate_retrieval_steps (target_item_id : string) (s : ContainerState.t)
    : option nat :=
  match find_placed target_item_id (ContainerState.placed_items s) with
  | None => None
  | Some target_item =>
      Some (length
              (List.filter
                 (fun other_item =>
                    negb (String.eqb (PlacedItem.item_id other_item) target_item_id) &&
                    blocks_access other_item target_item)
                 (ContainerState.placed_items s)))
  end.

Definition get_accessibility_score (item_id : string) (s : ContainerState.t) : Q :=
  match calculate_retrieval_steps item_id s with
  | None => 0
  | Some steps => py_max 0 (100 - inject_Z (Z.of_nat steps) * 10)
  end.
End AccessibilityTracker.

Module PriorityOps.
Section Priority.
Variable fromisoformat : string -> option datetime.

Definition calculate_retrieval_priority (item : Item.t) (retrieval_steps : nat)
    (current_time : datetime) : Q :=
  let composite_priority :=
    PriorityCalculator.calculate_composite_priority fromisoformat item current_time in
  let retrieval_penalty := (inject_Z (Z.of_nat retrieval_steps) * 5)%Q in
  let retrieval_penalty :=
    if (90 <=? Item.priority item)%Z then (retrieval_penalty * (1 # 2))%Q
    else if (70 <=? Item.priority item)%Z then (retrieval_penalty * (7 # 10))%Q
    else retrieval_penalty in
  py_max (composite_priority - retrieval_penalty) 0.
End Priority.
End PriorityOps.

(** Two 10 x 10 x 10 items placed one behind the other along the depth
    axis of the empty cube, and a third beside them. *)
Definition front_call : place_call := mk_call "000101" 0 0 0 10 10 10 (10, 10, 10)%Q 50.
Definition behind_call : place_call := mk_call "000102" 0 10 0 10 10 10 (10, 10, 10)%Q 50.
Definition beside_call : place_call := mk_call "000103" 50 0 0 10 10 10 (10, 10, 10)%Q 50.

Definition front_item : PlacedItem.t :=
  PlacedItem.mk "000101" 0 0 0 10 10 10 (10, 10, 10)%Q 50.
Definition behind_item : PlacedItem.t :=
  PlacedItem.mk "000102" 0 10 0 10 10 10 (10, 10, 10)%Q 50.

(** Three items stacked along the height axis whose footprints overlap:
    two long ones starting nearer the opening than the one in between. *)
Definition low_call : place_call := mk_call "000201" 0 0 0 10 20 10 (10, 20, 10)%Q 50.
Definition high_call : place_call := mk_call "000202" 0 2 20 10 20 10 (10, 20, 10)%Q 50.
Definition between_call : place_call := mk_call "000203" 0 5 10 10 10 10 (10, 10, 10)%Q 50.

Definition height_stack : ContainerState.t :=
  run_calls fresh_cube [low_call; high_call; between_call].
(** * Properties *)

(** ** Boolean tests as rational inequalities *)

Lemma Qlt_bool_iff x y : Qlt_bool x y = true <-> (x < y)%Q.
Proof.
  unfold Qlt_bool. rewrite negb_true_iff, <- not_true_iff_false, Qle_bool_iff.
  split; intros H; lra.
Qed.

Lemma Qlt_bool_false_iff x y : Qlt_bool x y = false <-> (y <= x)%Q.
Proof.
  unfold Qlt_bool. rewrite negb_false_iff, Qle_bool_iff. reflexivity.
Qed.

Lemma Qle_bool_false_iff x y : Qle_bool x y = false <-> (y < x)%Q.
Proof.
  rewrite <- not_true_iff_false, Qle_bool_iff. split; intros H; lra.
Qed.

Ltac q_tests :=
  repeat match goal with
  | H : _ && _ = true |- _ => apply andb_true_iff in H; destruct H
  | H : _ || _ = false |- _ => apply orb_false_iff in H; destruct H
  | H : negb _ = true |- _ => apply negb_true_iff in H
  | H : negb _ = false |- _ => apply negb_false_iff in H
  | H : Qle_bool _ _ = true |- _ => apply Qle_bool_iff in H
  | H : Qle_bool _ _ = false |- _ => apply Qle_bool_false_iff in H
  | H : Qlt_bool _ _ = true |- _ => apply Qlt_bool_iff in H
  | H : Qlt_bool _ _ = false |- _ => apply Qlt_bool_false_iff in H
  end.

Lemma orb6_true_cases (a b c d e f : bool) :
  a || b || c || d || e || f = true ->
  a = true \/ b = true \/ c = true \/ d = true \/ e = true \/ f = true.
Proof. destruct a, b, c, d, e, f; simpl; tauto. Qed.

Lemma aabb_overlap_sym a b : aabb_overlap a b = aabb_overlap b a.
Proof.
  unfold aabb_overlap. f_equal.
  destruct (Qle_bool (max_x a) (min_x b)), (Qle_bool (max_x b) (min_x a)),
           (Qle_bool (max_y a) (min_y b)), (Qle_bool (max_y b) (min_y a)),
           (Qle_bool (max_z a) (min_z b)), (Qle_bool (max_z b) (min_z a));
    reflexivity.
Qed.

(** The strict test refusing an overlap makes the tolerant one refuse it. *)
Lemma aabb_overlap_false_tolerant p q :
  aabb_overlap (PlacedItem.get_aabb p) (PlacedItem.get_aabb q) = false ->
  BoundingBox.overlaps_with (bounding_box_of p) (bounding_box_of q)
                            BoundingBox.epsilon = false.
Proof.
  unfold aabb_overlap, BoundingBox.overlaps_with, BoundingBox.epsilon. simpl.
  intros H. apply negb_false_iff in H. apply negb_false_iff.
  apply orb6_true_cases in H.
  repeat rewrite orb_true_iff.
  destruct H as [H|[H|[H|[H|[H|H]]]]]; apply Qle_bool_iff in H;
    [ do 5 left | do 4 left; right | do 3 left; right
    | do 2 left; right | left; right | right ];
    apply Qle_bool_iff; lra.
Qed.

Lemma can_place_item_spec s x y z w d h :
  ContainerState.can_place_item s x y z w d h = true ->
  aabb_within s (mk_aabb x y z (x + w) (y + d) (z + h)) /\
  forall p, p ∈ ContainerState.placed_items s ->
    aabb_overlap (mk_aabb x y z (x + w) (y + d) (z + h)) (PlacedItem.get_aabb p) = false.
Proof.
  unfold ContainerState.can_place_item.
  destruct (_ || _) eqn:Hb; [discriminate|].
  intros Hall. q_tests. split.
  - unfold aabb_within; simpl. repeat split; assumption.
  - intros p Hp. rewrite forallb_forall in Hall.
    apply list_elem_of_In in Hp. apply Hall in Hp.
    apply negb_true_iff in Hp. exact Hp.
Qed.

Lemma within_tolerant s p :
  aabb_within s (PlacedItem.get_aabb p) ->
  BoundingBox.is_within_container (bounding_box_of p)
    (ContainerState.width s) (ContainerState.depth s) (ContainerState.height s)
    BoundingBox.epsilon = true.
Proof.
  unfold aabb_within, BoundingBox.is_within_container, BoundingBox.epsilon. simpl.
  intros (H1 & H2 & H3 & H4 & H5 & H6).
  repeat (apply andb_true_iff; split); apply Qle_bool_iff; lra.
Qed.

(** ** Placement keeps the placed items apart and inside *)

Lemma do_call_cases s c :
  (fst (do_call s c) = false /\ snd (do_call s c) = s /\
   ContainerState.can_place_item s (call_x c) (call_y c) (call_z c)
     (call_width c) (call_depth c) (call_height c) = false) \/
  (fst (do_call s c) = true /\
   ContainerState.can_place_item s (call_x c) (call_y c) (call_z c)
     (call_width c) (call_depth c) (call_height c) = true /\
   snd (do_call s c) =
     ContainerState.mk (ContainerState.container_id s) (ContainerState.width s)
       (ContainerState.depth s) (ContainerState.height s) (ContainerState.zone s)
       (ContainerState.placed_items s ++
        [PlacedItem.mk (call_item_id c) (call_x c) (call_y c) (call_z c)
           (call_width c) (call_depth c) (call_height c)
           (call_original_dims c) (call_priority c)])
       (ContainerState._update_free_spaces s (call_x c) (call_y c) (call_z c)
          (call_width c) (call_depth c) (call_height c))
       (ContainerState.total_volume s)
       (ContainerState.used_volume s +
        PlacedItem.get_volume
          (PlacedItem.mk (call_item_id c) (call_x c) (call_y c) (call_z c)
             (call_width c) (call_depth c) (call_height c)
             (call_original_dims c) (call_priority c)))%Q).
Proof.
  unfold do_call, ContainerState.place_item.
  destruct (ContainerState.can_place_item _ _ _ _ _ _ _); simpl; auto.
Qed.

Lemma run_calls_snoc s cs c :
  run_calls s (cs ++ [c]) = snd (do_call (run_calls s cs) c).
Proof. unfold run_calls. rewrite foldl_app. reflexivity. Qed.

Lemma do_call_no_overlap s c :
  no_overlap_inv s -> no_overlap_inv (snd (do_call s c)).
Proof.
  intros Hinv.
  destruct (do_call_cases s c) as [(_ & -> & _)|(_ & Hcan & ->)]; [exact Hinv|].
  apply can_place_item_spec in Hcan as [_ Hfree].
  set (item := PlacedItem.mk _ _ _ _ _ _ _ _ _).
  assert (Hnew : forall p, p ∈ ContainerState.placed_items s ->
            aabb_overlap (PlacedItem.get_aabb item) (PlacedItem.get_aabb p) = false)
    by exact Hfree.
  assert (Hboth : forall p q,
            aabb_overlap (PlacedItem.get_aabb p) (PlacedItem.get_aabb q) = false ->
            aabb_overlap (PlacedItem.get_aabb p) (PlacedItem.get_aabb q) = false /\
            BoundingBox.overlaps_with (bounding_box_of p) (bounding_box_of q)
                                      BoundingBox.epsilon = false).
  { intros p q H. split; [exact H|]. apply aabb_overlap_false_tolerant, H. }
  intros i j p q Hij Hi Hj. simpl in Hi, Hj.
  apply lookup_app_Some in Hi, Hj.
  destruct Hi as [Hi|[Hli Hi]], Hj as [Hj|[Hlj Hj]].
  - exact (Hinv i j p q Hij Hi Hj).
  - apply list_lookup_singleton_Some in Hj as [_ <-].
    apply Hboth. rewrite aabb_overlap_sym. apply Hnew.
    apply list_elem_of_lookup. eauto.
  - apply list_lookup_singleton_Some in Hi as [_ <-].
    apply Hboth. apply Hnew. apply list_elem_of_lookup. eauto.
  - apply list_lookup_singleton_Some in Hi as [Hi _].
    apply list_lookup_singleton_Some in Hj as [Hj _]. lia.
Qed.

Lemma do_call_containment s c :
  containment_inv s -> containment_inv (snd (do_call s c)).
Proof.
  intros Hinv.
  destruct (do_call_cases s c) as [(_ & -> & _)|(_ & Hcan & ->)]; [exact Hinv|].
  apply can_place_item_spec in Hcan as [Hin _].
  intros p Hp. simpl in Hp. apply elem_of_app in Hp as [Hp|Hp].
  - apply Hinv in Hp as [H1 H2]. split; [exact H1|exact H2].
  - apply list_elem_of_singleton in Hp as ->.
    assert (Hw : aabb_within s (PlacedItem.get_aabb
              (PlacedItem.mk (call_item_id c) (call_x c) (call_y c) (call_z c)
                 (call_width c) (call_depth c) (call_height c)
                 (call_original_dims c) (call_priority c)))) by exact Hin.
    split; [exact Hw|]. apply (within_tolerant s), Hw.
Qed.

Lemma commits_only_accepted_holds : commits_only_accepted.
Proof.
  intros s c accepted. subst accepted.
  destruct (do_call_cases s c) as [(Hf & Hs & Hcan)|(Hf & Hcan & Hs)];
    rewrite Hf, Hcan.
  - split; [reflexivity|]. split; [intros _; exact Hs|discriminate].
  - split; [reflexivity|]. split; [discriminate|]. intros _. rewrite Hs. reflexivity.
Qed.

(** C1: starting from a fresh container state, after any sequence of
    [place_item] calls no two placed items overlap and every placed item
    lies within the container on the three axes; [place_item] commits
    exactly the positions that [can_place_item] accepts. *)
Theorem place_item_keeps_items_apart_and_inside
    (cid : string) (w d h : Q) (zn : string) (calls : list place_call) :
  no_overlap_inv (run_calls (ContainerState.init cid w d h zn) calls) /\
  containment_inv (run_calls (ContainerState.init cid w d h zn) calls) /\
  commits_only_accepted.
Proof.
  split; [|split; [|exact commits_only_accepted_holds]].
  - induction calls as [|c cs IH] using rev_ind.
    + intros i j p q _ Hi. unfold run_calls in Hi. simpl in Hi. discriminate.
    + rewrite run_calls_snoc. apply do_call_no_overlap, IH.
  - induction calls as [|c cs IH] using rev_ind.
    + intros p Hp. unfold run_calls in Hp. simpl in Hp.
      apply elem_of_nil in Hp. contradiction.
    + rewrite run_calls_snoc. apply do_call_containment, IH.
Qed.

(** ** Sorting keeps the elements *)

Lemma insert_by_key_perm {A} (key : A -> Q) x l :
  insert_by_key key x l ≡ₚ x :: l.
Proof.
  induction l as [|y l IH]; simpl; [reflexivity|].
  destruct (Qle_bool (key x) (key y)); [reflexivity|].
  rewrite IH. apply Permutation_swap.
Qed.

Lemma sort_by_key_perm {A} (key : A -> Q) l : sort_by_key key l ≡ₚ l.
Proof.
  unfold sort_by_key. induction l as [|x l IH]; simpl; [reflexivity|].
  rewrite insert_by_key_perm, IH. reflexivity.
Qed.

Lemma elem_of_sort_by_key {A} (key : A -> Q) l x : x ∈ sort_by_key key l <-> x ∈ l.
Proof. rewrite (sort_by_key_perm key l). reflexivity. Qed.

(** ** Free-space bookkeeping *)







(** ** The date-only parser on sample strings *)

Example fromisoformat_date_epoch :
  fromisoformat_date "1970-01-01" = Some (naive 0).
Proof. reflexivity. Qed.

Example fromisoformat_date_2025 :
  fromisoformat_date "2025-03-01" = Some (naive (20148 * microseconds_per_day)).
Proof. reflexivity. Qed.

Example fromisoformat_date_rejects :
  fromisoformat_date "next week" = None /\ fromisoformat_date "2025-02-30" = None.
Proof. split; reflexivity. Qed.


(** The two-cubes scenario: the first 60 x 60 x 60 item is placed, the
    second one is refused and the state is left as it was. *)
Example second_big_item_is_refused :
  fst (do_call fresh_cube big_call_1) = true /\
  do_call (snd (do_call fresh_cube big_call_1)) big_call_2 =
    (false, snd (do_call fresh_cube big_call_1)).
Proof. split; reflexivity. Qed.

(** ** Retrieval plan *)

(** What the loop of [_get_blocking_items] selects. *)
Lemma elem_of_get_blocking_items target_item target_pos placed_items item :
  Item.not_placed target_item = false ->
  Item.position target_item = Some target_pos ->
  item ∈ RetrievalEngine._get_blocking_items target_item placed_items <->
  item ∈ odict_values placed_items /\
  RetrievalEngine.is_blocking target_item target_pos item = true.
Proof.
  intros Hplaced Hpos. unfold RetrievalEngine._get_blocking_items.
  rewrite Hplaced, Hpos, elem_of_sort_by_key, list_elem_of_filter.
  rewrite Is_true_true. tauto.
Qed.

Lemma is_blocking_spec target_item target_pos item :
  RetrievalEngine.is_blocking target_item target_pos item = true <->
  Item.containerId item = Item.containerId target_item /\
  Item.itemId item <> Item.itemId target_item /\
  exists pos,
    Item.position item = Some pos /\
    (Coordinates3D.depth (startCoordinates target_pos) <
     Coordinates3D.depth (endCoordinates pos))%Q /\
    RetrievalEngine._overlaps_in_plane
      (startCoordinates target_pos) (endCoordinates target_pos)
      (startCoordinates pos) (endCoordinates pos) = true.
Proof.
  unfold RetrievalEngine.is_blocking.
  rewrite !andb_true_iff, bool_decide_eq_true, negb_true_iff, String.eqb_neq.
  destruct (Item.position item) as [pos|].
  - rewrite andb_true_iff, Qlt_bool_iff. split.
    + intros [[H1 H2] [H3 H4]]. eauto 8.
    + intros (H1 & H2 & pos' & [= <-] & H3 & H4). auto.
  - split; [intros [_ H]; discriminate|].
    intros (_ & _ & pos & H & _). discriminate.
Qed.

Lemma elem_of_number_steps start l s :
  s ∈ RetrievalEngine.number_steps start l <->
  exists (i : nat) a it,
    l !! i = Some (a, it) /\
    s = mk_step (start + i) a (Item.itemId it) (Item.name it).
Proof.
  revert start. induction l as [|[a it] l IH]; intros start; simpl.
  - rewrite elem_of_nil. split; [tauto|]. intros (i & a & it & H & _). discriminate.
  - rewrite elem_of_cons, IH. split.
    + intros [->|(i & a' & it' & Hi & ->)].
      * exists 0%nat, a, it. split; [reflexivity|]. f_equal. lia.
      * exists (S i), a', it'. split; [exact Hi|]. f_equal. lia.
    + intros ([|i] & a' & it' & Hi & ->); simpl in Hi.
      * injection Hi as <- <-. left. f_equal. lia.
      * right. exists i, a', it'. split; [exact Hi|]. f_equal. lia.
Qed.

(** The items that get a [remove] step are the members of the blocking
    list: the positioned items of the target's container, other than the
    target, whose end depth is beyond the target's start depth and whose
    projection overlaps the target's. *)
Lemma remove_step_iff_is_blocking target_item target_pos placed_items item_id :
  Item.not_placed target_item = false ->
  Item.position target_item = Some target_pos ->
  (exists s, s ∈ RetrievalEngine.get_retrieval_steps target_item placed_items /\
             step_action s = remove /\ step_itemId s = item_id) <->
  (exists item, item ∈ odict_values placed_items /\
                RetrievalEngine.is_blocking target_item target_pos item = true /\
                Item.itemId item = item_id).
Proof.
  intros Hplaced Hpos. unfold RetrievalEngine.get_retrieval_steps. rewrite Hplaced.
  set (blocking := RetrievalEngine._get_blocking_items target_item placed_items).
  assert (Hblocking : forall item, item ∈ blocking <->
            item ∈ odict_values placed_items /\
            RetrievalEngine.is_blocking target_item target_pos item = true).
  { intros item. apply elem_of_get_blocking_items; assumption. }
  split.
  - intros (s & Hs & Hact & Hid).
    apply elem_of_number_steps in Hs as (i & a & it & Hi & ->).
    simpl in Hact, Hid. subst a.
    apply list_elem_of_lookup_2 in Hi.
    apply elem_of_app in Hi as [Hi|Hi].
    + apply list_elem_of_In, in_map_iff in Hi as (it' & [= ->] & Hin).
      apply list_elem_of_In, Hblocking in Hin as [Hin Hb]. eauto.
    + apply elem_of_cons in Hi as [Hi|Hi]; [discriminate|].
      apply list_elem_of_In, in_map_iff in Hi as (it' & Heq & _). discriminate.
  - intros (item & Hin & Hb & Hid).
    assert (Hmem : (remove, item) ∈
              (map (pair remove) blocking ++ [(retrieve, target_item)] ++
               map (pair placeBack) (reverse blocking))%list).
    { apply elem_of_app. left. apply list_elem_of_In, in_map_iff.
      exists item. split; [reflexivity|]. apply list_elem_of_In, Hblocking. auto. }
    apply list_elem_of_lookup_1 in Hmem as [i Hi].
    exists (mk_step (1 + i) remove (Item.itemId item) (Item.name item)).
    split; [|split; [reflexivity|exact Hid]].
    apply elem_of_number_steps. eauto.
Qed.

(** C2, the code at a failing input: in the depth stack, the target
    [item_middle] is blocked, in the document's sense, by [item_front] and
    not by [item_back]; the computed plan removes [item_back] and leaves
    [item_front] where it is. *)
Theorem retrieval_plan_removes_item_behind_target :
  (exists target_pos front_pos back_pos,
     Item.position item_middle = Some target_pos /\
     Item.position item_front = Some front_pos /\
     Item.position item_back = Some back_pos /\
     blocks_spec target_pos front_pos /\
     ~ blocks_spec target_pos back_pos) /\
  RetrievalEngine._get_blocking_items item_middle depth_stack = [item_back] /\
  RetrievalEngine.get_retrieval_steps item_middle depth_stack =
    [mk_step 1 remove "000013" "item 000013";
     mk_step 2 retrieve "000012" "item 000012";
     mk_step 3 placeBack "000013" "item 000013"].
Proof.
  split; [|split; reflexivity].
  eexists _, _, _.
  split; [reflexivity|]. split; [reflexivity|]. split; [reflexivity|]. split.
  - split; [|reflexivity]. unfold Qlt. simpl. lia.
  - intros [H _]. unfold Qlt in H. simpl in H. lia.
Qed.

(** ** Composite priority *)

(** [Item] has no attribute [usageCount], so the usage term is never
    computed. *)
Lemma usage_score_is_zero item : PriorityCalculator.usage_score item = 0%Q.
Proof. reflexivity. Qed.

Lemma min_Q_le_r a b : (PriorityCalculator.min_Q a b <= b)%Q.
Proof.
  unfold PriorityCalculator.min_Q. destruct (Qle_bool a b) eqn:E; q_tests; lra.
Qed.

Lemma expiry_score_nonneg parser item now :
  (0 <= PriorityCalculator.expiry_score parser item now)%Q.
Proof.
  unfold PriorityCalculator.expiry_score.
  repeat match goal with
         | |- context [if ?b then _ else _] => destruct b
         | |- context [match ?o with Some _ => _ | None => _ end] => destruct o
         | |- context [match ?r with Ok _ => _ | Raise _ => _ end] => destruct r
         end; lra.
Qed.

Lemma zone_score_nonneg item : (0 <= PriorityCalculator.zone_score item)%Q.
Proof.
  unfold PriorityCalculator.zone_score.
  repeat match goal with |- context [if ?b then _ else _] => destruct b end; lra.
Qed.

(** What the code computes: the capped sum of the base, expiry and zone
    terms, within [0, 100] for a priority that is not negative. *)
Lemma composite_priority_range parser item now :
  (0 <= Item.priority item)%Z ->
  (0 <= PriorityCalculator.calculate_composite_priority parser item now <= 100)%Q.
Proof.
  intros Hp. unfold PriorityCalculator.calculate_composite_priority.
  split; [|apply min_Q_le_r].
  rewrite usage_score_is_zero.
  pose proof (expiry_score_nonneg parser item now) as He.
  pose proof (zone_score_nonneg item) as Hz.
  assert (Hb : (0 <= inject_Z (Item.priority item) / 100 * 40)%Q).
  { assert (H0 : (0 <= inject_Z (Item.priority item))%Q).
    { change 0%Q with (inject_Z 0). rewrite <- Zle_Qle. exact Hp. }
    assert (Heq : (inject_Z (Item.priority item) / 100 * 40 ==
                   inject_Z (Item.priority item) * (2 # 5))%Q) by field.
    rewrite Heq. lra. }
  unfold PriorityCalculator.min_Q. destruct (Qle_bool _ 100); lra.
Qed.

(** C3, the code at a failing input: for the placed item of priority 50
    with no expiry date and all 10 of its 10 uses spent, the code returns 20
    (base 20, usage term 0) where the documented formula gives 40 (base 20
    plus 20 for no remaining use). *)
Theorem composite_priority_ignores_usage :
  (PriorityCalculator.calculate_composite_priority fromisoformat_date
     spent_item sample_now == 20)%Q /\
  (composite_score_spec fromisoformat_date spent_item sample_now == 40)%Q /\
  PriorityCalculator.usage_score spent_item = 0%Q /\
  PriorityCalculator.usage_score_spec spent_item = 20%Q.
Proof. repeat split; reflexivity. Qed.

(** ** Dictionary updates *)

Lemma odict_get_set_eq {V} (k : string) (v : V) (d : odict V) :
  is_Some (odict_get k d) -> odict_get k (odict_set k v d) = Some v.
Proof.
  induction d as [|[k' v'] d IH]; simpl; intros Hs.
  - destruct Hs as [? Hs]. discriminate.
  - destruct (String.eqb k k') eqn:E; simpl; rewrite E; [reflexivity|].
    apply IH, Hs.
Qed.

Lemma odict_get_set_ne {V} (k k' : string) (v : V) (d : odict V) :
  k' <> k -> odict_get k' (odict_set k v d) = odict_get k' d.
Proof.
  intros Hne. induction d as [|[k0 v0] d IH]; simpl; [reflexivity|].
  destruct (String.eqb k k0) eqn:E; simpl.
  - apply String.eqb_eq in E. subst k0.
    destruct (String.eqb k' k) eqn:E'; [|reflexivity].
    apply String.eqb_eq in E'. contradiction.
  - destruct (String.eqb k' k0); [reflexivity|exact IH].
Qed.

(** ** Simulated retrieval *)

(** The four ways [simulate_retrieval] can go. *)
Lemma simulate_retrieval_cases parser item_id user_id placed_items now :
  let r := RetrievalEngine.simulate_retrieval parser item_id user_id placed_items now in
  (odict_get item_id placed_items = None /\
   r = mk_outcome false ("Item " ++ item_id ++ " not found") None placed_items) \/
  (exists item, odict_get item_id placed_items = Some item /\
    ((Item.not_placed item = true /\
      r = mk_outcome false ("Item " ++ item_id ++ " is not placed in any container")
                     None placed_items) \/
     (Item.not_placed item = false /\ Item.is_expired parser item now = true /\
      r = mk_outcome false ("Item " ++ item_id ++ " is expired") None placed_items) \/
     (Item.not_placed item = false /\ Item.is_expired parser item now = false /\
      Item.is_depleted item = true /\
      r = mk_outcome false ("Item " ++ item_id ++ " has no remaining uses")
                     None placed_items) \/
     (Item.not_placed item = false /\ Item.is_expired parser item now = false /\
      Item.is_depleted item = false /\
      r = mk_outcome true "Item retrieved successfully"
            (Some (Item.set_currentUses (Item.currentUses item + 1) item))
            (odict_set item_id (Item.set_currentUses (Item.currentUses item + 1) item)
                       placed_items)))).
Proof.
  unfold RetrievalEngine.simulate_retrieval.
  destruct (odict_get item_id placed_items) as [item|] eqn:Hget; [right|left; auto].
  exists item. split; [reflexivity|].
  destruct (Item.not_placed item); [left; auto|right].
  destruct (Item.is_expired parser item now); [left; auto|right].
  destruct (Item.is_depleted item); [left; auto|right; auto].
Qed.

(** ** Expiry, depletion and placement, spelled out *)






(** C9: a call of [simulate_retrieval] on an item with
    [currentUses <= usageLimit] either fails and leaves the dictionary as it
    was, or succeeds from a counter strictly below the limit and stores the
    item with the counter one higher, still within the limit; it fails
    whenever [currentUses >= usageLimit]; and the bound holds for every
    stored item afterwards if it held for every stored item before. *)
Theorem simulate_retrieval_keeps_uses_within_limit
    (parser : string -> option datetime) (item_id user_id : string)
    (placed_items : odict Item.t) (now : datetime) (item : Item.t)
    (Hget : odict_get item_id placed_items = Some item)
    (Hbound : (Item.currentUses item <= Item.usageLimit item)%Z) :
  let r := RetrievalEngine.simulate_retrieval parser item_id user_id placed_items now in
  ((success r = false /\ store_after r = placed_items) \/
   (success r = true /\
    (Item.currentUses item < Item.usageLimit item)%Z /\
    exists item',
      odict_get item_id (store_after r) = Some item' /\
      Item.currentUses item' = (Item.currentUses item + 1)%Z /\
      Item.usageLimit item' = Item.usageLimit item /\
      (Item.currentUses item' <= Item.usageLimit item')%Z)) /\
  ((Item.usageLimit item <= Item.currentUses item)%Z -> success r = false) /\
  ((forall k it, odict_get k placed_items = Some it ->
                 (Item.currentUses it <= Item.usageLimit it)%Z) ->
   forall k it, odict_get k (store_after r) = Some it ->
                (Item.currentUses it <= Item.usageLimit it)%Z).
Proof.
  intros r.
  destruct (simulate_retrieval_cases parser item_id user_id placed_items now)
    as [[Hnone Hr]|(item0 & Hget0 & Hcase)]; [congruence|].
  rewrite Hget in Hget0. injection Hget0 as <-.
  destruct Hcase as [[Hnp Hr]|[(Hnp & Hex & Hr)|[(Hnp & Hex & Hdep & Hr)
                                                |(Hnp & Hex & Hdep & Hr)]]];
    fold r in Hr; rewrite Hr; simpl;
    try (split; [left; auto|]; split; [reflexivity|]; intros Hall; exact Hall).
  unfold Item.is_depleted in Hdep. apply Z.leb_gt in Hdep.
  assert (Hset : odict_get item_id
            (odict_set item_id (Item.set_currentUses (Item.currentUses item + 1) item)
                       placed_items) =
            Some (Item.set_currentUses (Item.currentUses item + 1) item)).
  { apply odict_get_set_eq. rewrite Hget. eauto. }
  split; [|split].
  - right. split; [reflexivity|]. split; [exact Hdep|].
    eexists. split; [exact Hset|]. simpl. repeat split; lia.
  - intros Hge. lia.
  - intros Hall k it Hk.
    destruct (decide (k = item_id)) as [->|Hne].
    + rewrite Hset in Hk. injection Hk as <-. simpl. lia.
    + rewrite odict_get_set_ne in Hk by exact Hne. apply (Hall k it Hk).
Qed.

(** A run of C9: retrieving [item_front] from the depth stack. *)
Lemma simulate_retrieval_keeps_uses_within_limit_witness :
  let r := RetrievalEngine.simulate_retrieval fromisoformat_date "000011" "crew"
             depth_stack sample_now in
  ((success r = false /\ store_after r = depth_stack) \/
   (success r = true /\
    (Item.currentUses item_front < Item.usageLimit item_front)%Z /\
    exists item',
      odict_get "000011" (store_after r) = Some item' /\
      Item.currentUses item' = (Item.currentUses item_front + 1)%Z /\
      Item.usageLimit item' = Item.usageLimit item_front /\
      (Item.currentUses item' <= Item.usageLimit item')%Z)) /\
  ((Item.usageLimit item_front <= Item.currentUses item_front)%Z -> success r = false) /\
  ((forall k it, odict_get k depth_stack = Some it ->
                 (Item.currentUses it <= Item.usageLimit it)%Z) ->
   forall k it, odict_get k (store_after r) = Some it ->
                (Item.currentUses it <= Item.usageLimit it)%Z).
Proof.
  apply (simulate_retrieval_keeps_uses_within_limit fromisoformat_date "000011" "crew"
           depth_stack sample_now item_front).
  - reflexivity.
  - vm_compute. discriminate.
Defined.

(** ** Waste identification *)

Lemma not_placed_false_iff item :
  Item.not_placed item = false <->
  truthy_str (Item.containerId item) = true /\ is_Some (Item.position item).
Proof.
  unfold Item.not_placed. rewrite orb_false_iff, !negb_false_iff.
  rewrite bool_decide_eq_true. reflexivity.
Qed.

(** What the loop body of [identify_waste_items] yields for one item. *)
Lemma waste_entry_spec parser now item w :
  WasteEngine.waste_entry parser now item = Some w <->
  Item.not_placed item = false /\
  (Item.is_expired parser item now = true \/ Item.is_depleted item = true) /\
  w = mk_waste (Item.itemId item) (Item.name item)
        (if Item.is_expired parser item now then "Expired" else "Out of Uses")
        (Item.containerId item) (Item.position item).
Proof.
  unfold WasteEngine.waste_entry.
  destruct (Item.not_placed item), (Item.is_expired parser item now),
           (Item.is_depleted item); simpl; split;
    try discriminate;
    try (intros [= <-]; repeat split; auto; fail);
    try (intros (H1 & [H2|H2] & H3); congruence).
Qed.


(** ** Unparseable expiry dates *)

Lemma is_expired_unparseable parser item now s :
  Item.expiryDate item = Some s ->
  parser s = None ->
  Item.is_expired parser item now = false.
Proof.
  intros Hs Hparse. unfold Item.is_expired. rewrite Hs.
  destruct (_ || _); [reflexivity|]. rewrite Hparse. reflexivity.
Qed.

Lemma identify_waste_items_app parser now (pre post : odict Item.t) :
  WasteEngine.identify_waste_items parser (pre ++ post)%list now =
  (WasteEngine.identify_waste_items parser pre now ++
   WasteEngine.identify_waste_items parser post now)%list.
Proof.
  unfold WasteEngine.identify_waste_items, odict_values.
  rewrite map_app. apply omap_app.
Qed.

(** C10: an item whose expiry date is a non-empty string other than "N/A"
    that does not parse is never expired; wherever it sits in the item
    dictionary, [identify_waste_items] reports it either not at all or as
    out of uses; and [simulate_retrieval] treats it as an item without
    expiry: refused when unplaced or depleted, retrieved otherwise. *)
Theorem unparseable_expiry_never_expires
    (parser : string -> option datetime) (item : Item.t) (s : string)
    (Hdate : Item.expiryDate item = Some s)
    (Hnonempty : s <> "")
    (Hna : s <> "N/A")
    (Hparse : parser s = None) :
  (forall now, Item.is_expired parser item now = false) /\
  (forall now (pre post : odict Item.t) (k : string),
     exists entry,
       WasteEngine.identify_waste_items parser (pre ++ (k, item) :: post)%list now =
         (WasteEngine.identify_waste_items parser pre now ++ entry ++
          WasteEngine.identify_waste_items parser post now)%list /\
       forall w, w ∈ entry -> waste_reason w = "Out of Uses") /\
  (forall now item_id user_id (placed_items : odict Item.t),
     odict_get item_id placed_items = Some item ->
     RetrievalEngine.simulate_retrieval parser item_id user_id placed_items now =
       if Item.not_placed item then
         mk_outcome false ("Item " ++ item_id ++ " is not placed in any container")
                    None placed_items
       else if Item.is_depleted item then
         mk_outcome false ("Item " ++ item_id ++ " has no remaining uses")
                    None placed_items
       else
         mk_outcome true "Item retrieved successfully"
           (Some (Item.set_currentUses (Item.currentUses item + 1) item))
           (odict_set item_id (Item.set_currentUses (Item.currentUses item + 1) item)
                      placed_items)).
Proof.
  assert (Hnever : forall now, Item.is_expired parser item now = false).
  { intros now. apply (is_expired_unparseable parser item now s Hdate Hparse). }
  split; [exact Hnever|]. split.
  - intros now pre post k.
    exists (WasteEngine.identify_waste_items parser [(k, item)] now). split.
    + change (pre ++ (k, item) :: post)%list with (pre ++ ([(k, item)] ++ post))%list.
      rewrite !identify_waste_items_app. reflexivity.
    + intros w Hw. unfold WasteEngine.identify_waste_items in Hw. simpl in Hw.
      destruct (WasteEngine.waste_entry parser now item) as [w'|] eqn:Hentry;
        simpl in Hw; [|apply elem_of_nil in Hw; contradiction].
      apply list_elem_of_singleton in Hw as ->.
      apply waste_entry_spec in Hentry as (_ & _ & ->).
      simpl. rewrite Hnever. reflexivity.
  - intros now item_id user_id placed_items Hget.
    unfold RetrievalEngine.simulate_retrieval. rewrite Hget, Hnever. reflexivity.
Qed.

(** A run of C10: the item dated "next week". *)
Lemma unparseable_expiry_never_expires_witness :
  (forall now, Item.is_expired fromisoformat_date undated_item now = false) /\
  (forall now (pre post : odict Item.t) (k : string),
     exists entry,
       WasteEngine.identify_waste_items fromisoformat_date
         (pre ++ (k, undated_item) :: post)%list now =
         (WasteEngine.identify_waste_items fromisoformat_date pre now ++ entry ++
          WasteEngine.identify_waste_items fromisoformat_date post now)%list /\
       forall w, w ∈ entry -> waste_reason w = "Out of Uses") /\
  (forall now item_id user_id (placed_items : odict Item.t),
     odict_get item_id placed_items = Some undated_item ->
     RetrievalEngine.simulate_retrieval fromisoformat_date item_id user_id
       placed_items now =
       if Item.not_placed undated_item then
         mk_outcome false ("Item " ++ item_id ++ " is not placed in any container")
                    None placed_items
       else if Item.is_depleted undated_item then
         mk_outcome false ("Item " ++ item_id ++ " has no remaining uses")
                    None placed_items
       else
         mk_outcome true "Item retrieved successfully"
           (Some (Item.set_currentUses (Item.currentUses undated_item + 1) undated_item))
           (odict_set item_id
              (Item.set_currentUses (Item.currentUses undated_item + 1) undated_item)
              placed_items)).
Proof.
  apply (unparseable_expiry_never_expires fromisoformat_date undated_item "next week").
  - reflexivity.
  - discriminate.
  - discriminate.
  - reflexivity.
Defined.

(** ** Undocking *)

Lemma odict_del_absent {V} (k : string) (d : odict V) :
  odict_get k d = None -> odict_del k d = d.
Proof.
  unfold odict_del. induction d as [|[k' v] d IH]; simpl; [reflexivity|].
  destruct (String.eqb k k') eqn:E; [discriminate|]. intros Hd.
  rewrite filter_cons. simpl. rewrite E. simpl. f_equal. apply IH, Hd.
Qed.

(** Deleting the listed keys one after the other keeps exactly the entries
    under the other keys. *)
Lemma fold_del_filter {V} (ks : list string) (d : odict V) :
  foldl (fun d item_id =>
           if bool_decide (is_Some (odict_get item_id d))
           then odict_del item_id d else d) d ks =
  filter (fun kv => fst kv ∉ ks) d.
Proof.
  revert d. induction ks as [|k ks IH]; intros d; simpl.
  - induction d as [|kv d IHd]; [reflexivity|].
    rewrite filter_cons. destruct (decide _) as [_|Hn].
    + f_equal. exact IHd.
    + exfalso. apply Hn. apply not_elem_of_nil.
  - assert (Hstep : (if bool_decide (is_Some (odict_get k d))
                     then odict_del k d else d) = odict_del k d).
    { destruct (bool_decide (is_Some (odict_get k d))) eqn:E; [reflexivity|].
      apply bool_decide_eq_false in E. symmetry. apply odict_del_absent.
      destruct (odict_get k d); [exfalso; apply E; eauto|reflexivity]. }
    rewrite Hstep, IH. unfold odict_del. rewrite list_filter_filter.
    apply list_filter_iff. intros [k' v]. simpl.
    rewrite not_elem_of_cons, Is_true_true, negb_true_iff.
    split.
    + intros [Hks Hk]. apply String.eqb_neq in Hk. split; [congruence|exact Hks].
    + intros [Hk Hks]. split; [exact Hks|]. apply String.eqb_neq. congruence.
Qed.

Lemma odict_get_filter_notin {V} (ks : list string) (k : string) (d : odict V) :
  odict_get k (filter (fun kv => fst kv ∉ ks) d) =
  if decide (k ∈ ks) then None else odict_get k d.
Proof.
  induction d as [|[k' v] d IH]; simpl.
  - destruct (decide (k ∈ ks)); reflexivity.
  - rewrite filter_cons. simpl.
    destruct (String.eqb k k') eqn:E.
    + apply String.eqb_eq in E. subst k'.
      destruct (decide (k ∉ ks)) as [Hp|Hp]; simpl.
      * rewrite String.eqb_refl. destruct (decide (k ∈ ks)); [contradiction|reflexivity].
      * rewrite IH. destruct (decide (k ∈ ks)); [reflexivity|contradiction].
    + destruct (decide (k' ∉ ks)); simpl; [rewrite E|]; exact IH.
Qed.

Lemma odict_get_Some_elem {V} (k : string) (v : V) (d : odict V) :
  odict_get k d = Some v -> (k, v) ∈ d.
Proof.
  induction d as [|[k' v'] d IH]; simpl; [discriminate|].
  destruct (String.eqb k k') eqn:E.
  - apply String.eqb_eq in E. intros [= ->]. subst. apply list_elem_of_here.
  - intros H. apply list_elem_of_further, IH, H.
Qed.

Lemma odict_elem_get {V} (k : string) (v : V) (d : odict V) :
  NoDup (odict_keys d) -> (k, v) ∈ d -> odict_get k d = Some v.
Proof.
  unfold odict_keys. induction d as [|[k' v'] d IH]; simpl; intros Hnd Hin.
  - apply elem_of_nil in Hin. contradiction.
  - apply NoDup_cons in Hnd as [Hk' Hnd].
    apply elem_of_cons in Hin as [[= -> ->]|Hin].
    + rewrite String.eqb_refl. reflexivity.
    + destruct (String.eqb k k') eqn:E; [|apply IH; assumption].
      apply String.eqb_eq in E. subst k'. exfalso. apply Hk'.
      apply list_elem_of_In, in_map_iff. exists (k, v). split; [reflexivity|].
      apply list_elem_of_In, Hin.
Qed.

(** C8 (as amended): for a container id present in the container
    dictionary, [execute_undocking] succeeds, deletes that container and no
    other, returns the number of entries assigned to it, deletes those
    entries from the item dictionary and leaves every other entry as it
    was. *)
Theorem execute_undocking_removes_container_and_its_items
    (undocking_container_id : string) (placed_items : odict Item.t)
    (containers : gmap string Container.t)
    (Hpresent : is_Some (containers !! undocking_container_id))
    (Hkeys : NoDup (odict_keys placed_items)) :
  let r := WasteEngine.execute_undocking undocking_container_id placed_items containers in
  undock_success r = true /\
  items_removed r =
    length (filter (fun item => Item.containerId item = Some undocking_container_id)
                   (odict_values placed_items)) /\
  containers_after r !! undocking_container_id = None /\
  (forall cid, cid <> undocking_container_id ->
               containers_after r !! cid = containers !! cid) /\
  (forall k, odict_get k (items_after r) =
             after_undocking undocking_container_id (odict_get k placed_items)).
Proof.
  intros r. subst r. unfold WasteEngine.execute_undocking.
  destruct Hpresent as [c Hc]. rewrite Hc. simpl.
  split; [reflexivity|]. split; [|split; [|split]].
  - rewrite length_map. unfold odict_values.
    induction placed_items as [|[k v] d IH]; [reflexivity|].
    apply NoDup_cons in Hkeys as [_ Hkeys]. specialize (IH Hkeys).
    simpl. rewrite !filter_cons. simpl.
    rewrite bool_decide_decide.
    destruct (decide (Item.containerId v = Some undocking_container_id)); simpl.
    + destruct (decide (Is_true true)) as [_|Hn]; [|exfalso; apply Hn; exact I].
      simpl. f_equal. exact IH.
    + destruct (decide (Is_true false)) as [Hn|_]; [destruct Hn|]. exact IH.
  - apply lookup_delete_eq.
  - intros cid Hne. apply lookup_delete_ne. congruence.
  - intros k. rewrite fold_del_filter, odict_get_filter_notin.
    unfold after_undocking.
    destruct (odict_get k placed_items) as [item|] eqn:Hget.
    + destruct (decide _) as [Hin|Hnot]; rewrite bool_decide_decide;
        destruct (decide (Item.containerId item = Some undocking_container_id))
          as [Hassigned|Hfree]; try reflexivity.
      * exfalso.
        apply list_elem_of_In, in_map_iff in Hin as ([k' v] & Hk & Hin).
        simpl in Hk. subst k'.
        apply list_elem_of_In, list_elem_of_filter in Hin as [Hv Hin].
        simpl in Hv. apply bool_decide_unpack in Hv.
        apply (odict_elem_get _ _ _ Hkeys) in Hin. congruence.
      * exfalso. apply Hnot.
        apply list_elem_of_In, in_map_iff. exists (k, item). split; [reflexivity|].
        apply list_elem_of_In, list_elem_of_filter. split.
        -- simpl. apply bool_decide_pack, Hassigned.
        -- apply odict_get_Some_elem, Hget.
    + destruct (decide _); reflexivity.
Qed.

(** A run of C8: undocking [contA] from the two-container store. *)
Lemma execute_undocking_removes_container_and_its_items_witness :
  let r := WasteEngine.execute_undocking "contA" two_container_store sample_containers in
  undock_success r = true /\
  items_removed r =
    length (filter (fun item => Item.containerId item = Some "contA")
                   (odict_values two_container_store)) /\
  containers_after r !! "contA" = None /\
  (forall cid, cid <> "contA" -> containers_after r !! cid = sample_containers !! cid) /\
  (forall k, odict_get k (items_after r) =
             after_undocking "contA" (odict_get k two_container_store)).
Proof.
  apply (execute_undocking_removes_container_and_its_items
           "contA" two_container_store sample_containers).
  - vm_compute. eauto.
  - refine (bool_decide_unpack (NoDup (odict_keys two_container_store)) _).
    vm_compute. exact I.
Defined.

(** C8, counterexample: [item_front] is stored under key 000011 and assigned
    to [contA]; after [contA] is undocked the key is gone from the item
    dictionary, so the item is not kept as an unplaced item.  Two entries
    are counted as removed and the entry of the other container is all that
    is left. *)
Lemma undocking_deletes_the_items :
  is_Some (sample_containers !! "contA") /\
  odict_get "000011" two_container_store = Some item_front /\
  Item.containerId item_front = Some "contA" /\
  odict_get "000011"
    (items_after (WasteEngine.execute_undocking "contA" two_container_store
                    sample_containers)) = None /\
  items_removed (WasteEngine.execute_undocking "contA" two_container_store
                   sample_containers) = 2%nat /\
  items_after (WasteEngine.execute_undocking "contA" two_container_store
                 sample_containers) = [("000050", item_elsewhere)].
Proof.
  split; [vm_compute; eauto|]. repeat split; vm_compute; reflexivity.
Qed.

(** ** Return plan *)

Lemma sum_Q_snoc (l : list Q) (x : Q) : (sum_Q (l ++ [x])%list == sum_Q l + x)%Q.
Proof.
  unfold sum_Q. induction l as [|y l IH]; simpl; [lra|]. rewrite IH. lra.
Qed.

Lemma mapM_Ok_elem {A B} (f : A -> result B) (l : list A) (bs : list B) :
  WasteEngine.mapM f l = Ok bs ->
  forall b, b ∈ bs -> exists a, a ∈ l /\ f a = Ok b.
Proof.
  revert bs. induction l as [|a l IH]; simpl; intros bs Hm b Hb.
  - injection Hm as <-. apply elem_of_nil in Hb. contradiction.
  - destruct (f a) as [b0|] eqn:Hfa; simpl in Hm; [|discriminate].
    destruct (WasteEngine.mapM f l) as [bs0|] eqn:Hl; simpl in Hm; [|discriminate].
    injection Hm as <-. apply elem_of_cons in Hb as [->|Hb].
    + exists a. split; [apply list_elem_of_here|exact Hfa].
    + destruct (IH bs0 eq_refl b Hb) as (a' & Ha' & Hfa').
      exists a'. split; [apply list_elem_of_further, Ha'|exact Hfa'].
Qed.

Lemma odict_get_Some_value {V} (k : string) (v : V) (d : odict V) :
  odict_get k d = Some v -> v ∈ odict_values d.
Proof.
  intros H. apply odict_get_Some_elem in H.
  apply list_elem_of_In, in_map_iff. exists (k, v). split; [reflexivity|].
  apply list_elem_of_In, H.
Qed.

Lemma prioritize_item placed_items containers info wd :
  WasteEngine.prioritize placed_items containers info = Ok wd ->
  wd_item wd ∈ odict_values placed_items.
Proof.
  unfold WasteEngine.prioritize, WasteEngine.getitem.
  destruct (odict_get (waste_itemId info) placed_items) as [item|] eqn:Hget;
    simpl; [|discriminate].
  intros [= <-]. simpl. apply (odict_get_Some_value _ _ _ Hget).
Qed.

(** The selection loop: what it has accepted so far accounts for its lists
    and running totals, and the totals stay within non-negative limits. *)
Lemma selection_loop_invariant undocking_container_id max_weight available_volume
    (prioritized_waste : list WasteData) :
  let sel := foldl (WasteEngine.select_step undocking_container_id max_weight
                      available_volume)
                   WasteEngine.initial_selection prioritized_waste in
  exists accepted : list Item.t,
    (forall it, it ∈ accepted -> exists wd, wd ∈ prioritized_waste /\ it = wd_item wd) /\
    map plan_itemId (sel_return_plan sel) = map Item.itemId accepted /\
    map ret_itemId (sel_return_items sel) = map Item.itemId accepted /\
    (sel_total_weight sel == sum_Q (map Item.mass accepted))%Q /\
    (sel_total_volume sel == sum_Q (map Item.get_volume accepted))%Q /\
    ((0 <= max_weight)%Q -> (sel_total_weight sel <= max_weight)%Q) /\
    ((0 <= available_volume)%Q -> (sel_total_volume sel <= available_volume)%Q).
Proof.
  induction prioritized_waste as [|wd l IH] using rev_ind.
  - exists []. simpl.
    split; [intros it Hit; apply elem_of_nil in Hit; contradiction|].
    repeat split; try reflexivity; intros; assumption.
  - rewrite foldl_app. simpl.
    destruct IH as (acc & Hsub & Hplan & Hitems & Hw & Hv & Hmw & Hav).
    set (sel := foldl _ _ l) in *.
    assert (Hsub' : forall it, it ∈ acc ->
              exists wd0, wd0 ∈ (l ++ [wd])%list /\ it = wd_item wd0).
    { intros it Hit. destruct (Hsub it Hit) as (wd0 & Hin & ->).
      exists wd0. split; [apply elem_of_app; left; exact Hin|reflexivity]. }
    unfold WasteEngine.select_step.
    destruct (Qlt_bool max_weight _) eqn:Hcw.
    { exists acc. repeat split; assumption. }
    destruct (Qlt_bool available_volume _) eqn:Hcv.
    { exists acc. repeat split; assumption. }
    q_tests. exists (acc ++ [wd_item wd])%list. simpl.
    rewrite !map_app, Hplan, Hitems. simpl.
    split; [|repeat split; try reflexivity].
    + intros it Hit. apply elem_of_app in Hit as [Hit|Hit]; [apply Hsub', Hit|].
      apply list_elem_of_singleton in Hit as ->. exists wd. split; [|reflexivity].
      apply elem_of_app. right. apply list_elem_of_singleton. reflexivity.
    + rewrite sum_Q_snoc, Hw. reflexivity.
    + rewrite sum_Q_snoc, Hv. reflexivity.
    + intros _. exact Hcw.
    + intros _. exact Hcv.
Qed.

(** C6 (as amended): whenever [calculate_return_plan] returns a plan, the
    manifest's [totalWeight] is the sum of the accepted items' masses and
    its [totalVolume] the sum of their volumes; [totalWeight <= maxWeight]
    when [maxWeight] is not negative, and [totalVolume] is at most the
    undocking container's available volume when that volume is not
    negative. *)
Theorem return_plan_totals_within_capacity
    (parser : string -> option datetime) (undocking_container_id : string)
    (max_weight : Q) (placed_items : odict Item.t)
    (containers : gmap string Container.t) (now : datetime) (plan : ReturnPlan)
    (Hplan : WasteEngine.calculate_return_plan parser undocking_container_id max_weight
               placed_items containers now = Ok plan) :
  exists accepted : list Item.t,
    (forall it, it ∈ accepted -> it ∈ odict_values placed_items) /\
    map plan_itemId (returnPlan plan) = map Item.itemId accepted /\
    map ret_itemId (returnItems (returnManifest plan)) = map Item.itemId accepted /\
    (totalWeight (returnManifest plan) == sum_Q (map Item.mass accepted))%Q /\
    (totalVolume (returnManifest plan) == sum_Q (map Item.get_volume accepted))%Q /\
    ((0 <= max_weight)%Q -> (totalWeight (returnManifest plan) <= max_weight)%Q) /\
    (forall c, containers !! undocking_container_id = Some c ->
       (0 <= Container.get_available_volume c placed_items)%Q ->
       (totalVolume (returnManifest plan) <=
        Container.get_available_volume c placed_items)%Q).
Proof.
  unfold WasteEngine.calculate_return_plan in Hplan.
  destruct (WasteEngine.identify_waste_items parser placed_items now) as [|w ws] eqn:Hwaste.
  - injection Hplan as <-. exists []. simpl.
    split; [intros it Hit; apply elem_of_nil in Hit; contradiction|].
    repeat split; try reflexivity; intros; assumption.
  - destruct (containers !! undocking_container_id) as [c|] eqn:Hc; [|discriminate].
    destruct (WasteEngine.mapM _ (w :: ws)) as [prioritized|] eqn:Hprio;
      simpl in Hplan; [|discriminate].
    destruct (WasteEngine.mapM _ (sel_return_plan _)) as [per_item|] eqn:Hsteps;
      simpl in Hplan; [|discriminate].
    injection Hplan as <-. simpl.
    destruct (selection_loop_invariant undocking_container_id max_weight
                (Container.get_available_volume c placed_items)
                (sort_by_key wd_priority_score prioritized))
      as (acc & Hsub & Hp & Hi & Hw & Hv & Hmw & Hav).
    exists acc. repeat split; try assumption.
    + intros it Hit. destruct (Hsub it Hit) as (wd & Hwd & ->).
      apply elem_of_sort_by_key in Hwd.
      destruct (mapM_Ok_elem _ _ _ Hprio wd Hwd) as (info & _ & Hinfo).
      apply (prioritize_item _ _ _ _ Hinfo).
    + intros c' [= <-]. exact Hav.
Qed.

Example sample_plan_computed :
  WasteEngine.calculate_return_plan fromisoformat_date "contA" 1 waste_store
    sample_containers sample_now = Ok sample_plan.
Proof. vm_compute. reflexivity. Qed.

(** A run of C6: the plan for [waste_store] under a weight limit of 1. *)
Lemma return_plan_totals_within_capacity_witness :
  exists accepted : list Item.t,
    (forall it, it ∈ accepted -> it ∈ odict_values waste_store) /\
    map plan_itemId (returnPlan sample_plan) = map Item.itemId accepted /\
    map ret_itemId (returnItems (returnManifest sample_plan)) =
      map Item.itemId accepted /\
    (totalWeight (returnManifest sample_plan) == sum_Q (map Item.mass accepted))%Q /\
    (totalVolume (returnManifest sample_plan) ==
     sum_Q (map Item.get_volume accepted))%Q /\
    ((0 <= 1)%Q -> (totalWeight (returnManifest sample_plan) <= 1)%Q) /\
    (forall c, sample_containers !! "contA" = Some c ->
       (0 <= Container.get_available_volume c waste_store)%Q ->
       (totalVolume (returnManifest sample_plan) <=
        Container.get_available_volume c waste_store)%Q).
Proof.
  apply (return_plan_totals_within_capacity fromisoformat_date "contA" 1 waste_store
           sample_containers sample_now sample_plan).
  vm_compute. reflexivity.
Defined.

(** C6, counterexample: with a weight limit of -1 the plan for [waste_store]
    accepts nothing, and its [totalWeight], 0, is above the limit; and for
    the container whose available volume is -7000 the plan accepts nothing
    either, and its [totalVolume], 0, is above the available volume. *)
Lemma return_plan_totals_above_negative_limits :
  (exists plan,
     WasteEngine.calculate_return_plan fromisoformat_date "contA" (-1) waste_store
       sample_containers sample_now = Ok plan /\
     returnPlan plan = [] /\
     (totalWeight (returnManifest plan) == 0)%Q /\
     ~ (totalWeight (returnManifest plan) <= -1)%Q) /\
  (exists plan,
     WasteEngine.calculate_return_plan fromisoformat_date "contC" 100 bulky_store
       small_containers sample_now = Ok plan /\
     small_containers !! "contC" = Some small_container /\
     (Container.get_available_volume small_container bulky_store == -7000)%Q /\
     returnPlan plan = [] /\
     (totalVolume (returnManifest plan) == 0)%Q /\
     ~ (totalVolume (returnManifest plan) <=
        Container.get_available_volume small_container bulky_store)%Q).
Proof.
  split.
  - eexists. split; [vm_compute; reflexivity|]. simpl.
    split; [reflexivity|]. split; [reflexivity|]. intros H. lra.
  - eexists. split; [vm_compute; reflexivity|]. simpl.
    split; [vm_compute; reflexivity|].
    split; [vm_compute; reflexivity|].
    split; [reflexivity|]. split; [reflexivity|].
    intros H. vm_compute in H. apply H. reflexivity.
Qed.

(** ** The offset-aware parser on sample strings *)

Example fromisoformat_datetime_utc :
  fromisoformat_datetime "2025-02-28T00:00:00+00:00" =
  Some (mk_datetime (20147 * microseconds_per_day) (Some 0%Z)).
Proof. reflexivity. Qed.

Example fromisoformat_datetime_date_only :
  fromisoformat_datetime "2025-02-28" = Some (naive (20147 * microseconds_per_day)).
Proof. reflexivity. Qed.



(** ** Sample runs of the retrieval simulation *)

Example retrieval_counts_one_use :
  let r := RetrievalEngine.simulate_retrieval fromisoformat_date "000011" "crew"
             depth_stack sample_now in
  success r = true /\
  message r = "Item retrieved successfully" /\
  returned_item r = Some (Item.set_currentUses 1 item_front) /\
  store_after r =
    [("000011", Item.set_currentUses 1 item_front);
     ("000012", item_middle); ("000013", item_back)].
Proof. repeat split; reflexivity. Qed.

Example retrieval_refuses_expired_item :
  RetrievalEngine.simulate_retrieval fromisoformat_date "000030" "crew"
    waste_store sample_now =
  mk_outcome false "Item 000030 is expired" None waste_store.
Proof. reflexivity. Qed.

Example retrieval_refuses_spent_item :
  RetrievalEngine.simulate_retrieval fromisoformat_date "000020" "crew"
    waste_store sample_now =
  mk_outcome false "Item 000020 has no remaining uses" None waste_store.
Proof. reflexivity. Qed.

Example retrieval_refuses_unknown_item :
  RetrievalEngine.simulate_retrieval fromisoformat_date "999999" "crew"
    waste_store sample_now =
  mk_outcome false "Item 999999 not found" None waste_store.
Proof. reflexivity. Qed.

(** * Properties of the further functions *)

(** ** Shape of the retrieval plan *)

Lemma length_number_steps start l :
  length (RetrievalEngine.number_steps start l) = length l.
Proof.
  revert start. induction l as [|[a it] l IH]; intros start; simpl; [reflexivity|].
  rewrite IH. reflexivity.
Qed.

Lemma number_steps_step start l i s :
  RetrievalEngine.number_steps start l !! i = Some s -> step s = (start + i)%nat.
Proof.
  intros Hs. apply list_elem_of_lookup_2 in Hs as Hin.
  revert start i Hs Hin. induction l as [|[a it] l IH]; intros start i Hs _; simpl in Hs.
  - discriminate.
  - destruct i as [|i]; simpl in Hs.
    + injection Hs as <-. simpl. lia.
    + rewrite (IH (S start) i Hs); [lia|]. apply list_elem_of_lookup_2 in Hs. exact Hs.
Qed.

Lemma ids_with_action_number_steps a start l :
  ids_with_action a (RetrievalEngine.number_steps start l) =
  map (fun p => Item.itemId (snd p)) (List.filter (fun p => action_eqb (fst p) a) l).
Proof.
  unfold ids_with_action. revert start.
  induction l as [|[a' it] l IH]; intros start; simpl; [reflexivity|].
  destruct (action_eqb a' a); simpl; rewrite IH; reflexivity.
Qed.

Lemma filter_pair_same a (l : list Item.t) :
  List.filter (fun p => action_eqb (fst p) a) (map (pair a) l) = map (pair a) l.
Proof.
  induction l as [|x l IH]; simpl; [reflexivity|].
  rewrite IH. destruct a; reflexivity.
Qed.

Lemma filter_pair_other a b (l : list Item.t) :
  action_eqb b a = false ->
  List.filter (fun p => action_eqb (fst p) a) (map (pair b) l) = [].
Proof.
  intros Hab. induction l as [|x l IH]; simpl; [reflexivity|].
  rewrite Hab. exact IH.
Qed.

Lemma map_reverse {A B} (f : A -> B) (l : list A) :
  map f (reverse l) = reverse (map f l).
Proof.
  induction l as [|x l IH]; simpl; [reflexivity|].
  rewrite !reverse_cons, map_app, IH. reflexivity.
Qed.

(** X1: an unplaced target gets no plan; a placed target gets one step per
    blocking item, the retrieval, and one step per blocking item again, and
    the steps are numbered 1, 2, 3, ... in order. *)
Theorem retrieval_steps_count_and_numbering
    (target_item : Item.t) (placed_items : odict Item.t) :
  (Item.not_placed target_item = true ->
   RetrievalEngine.get_retrieval_steps target_item placed_items = []) /\
  (Item.not_placed target_item = false ->
   length (RetrievalEngine.get_retrieval_steps target_item placed_items) =
     (2 * length (RetrievalEngine._get_blocking_items target_item placed_items) + 1)%nat /\
   forall i s,
     RetrievalEngine.get_retrieval_steps target_item placed_items !! i = Some s ->
     step s = S i).
Proof.
  unfold RetrievalEngine.get_retrieval_steps. split; intros ->; [reflexivity|].
  split.
  - rewrite length_number_steps, !length_app, !length_map, length_reverse. simpl. lia.
  - intros i s Hs. apply number_steps_step in Hs. lia.
Qed.

(** X2: in the plan of a placed target the [remove] steps name the blocking
    items in order, the [placeBack] steps name them in reverse order (the
    last removed is put back first), and the one [retrieve] step names the
    target. *)
Theorem retrieval_steps_undo_in_reverse
    (target_item : Item.t) (placed_items : odict Item.t) :
  Item.not_placed target_item = false ->
  let steps := RetrievalEngine.get_retrieval_steps target_item placed_items in
  let blocking := RetrievalEngine._get_blocking_items target_item placed_items in
  ids_with_action remove steps = map Item.itemId blocking /\
  ids_with_action retrieve steps = [Item.itemId target_item] /\
  ids_with_action placeBack steps = reverse (ids_with_action remove steps).
Proof.
  intros Hplaced steps blocking. subst steps.
  unfold RetrievalEngine.get_retrieval_steps. rewrite Hplaced. fold blocking.
  rewrite !ids_with_action_number_steps, !List.filter_app.
  rewrite !filter_pair_same, !filter_pair_other by reflexivity.
  simpl. rewrite !app_nil_r, !map_map. simpl.
  repeat split. apply map_reverse.
Qed.

(** A run of X2: the depth stack. *)
Lemma retrieval_steps_undo_in_reverse_witness :
  let steps := RetrievalEngine.get_retrieval_steps item_middle depth_stack in
  let blocking := RetrievalEngine._get_blocking_items item_middle depth_stack in
  ids_with_action remove steps = map Item.itemId blocking /\
  ids_with_action retrieve steps = [Item.itemId item_middle] /\
  ids_with_action placeBack steps = reverse (ids_with_action remove steps).
Proof.
  apply (retrieval_steps_undo_in_reverse item_middle depth_stack). reflexivity.
Defined.

(** ** Order of the blocking list *)

Lemma ascending_cons {A} (key : A -> Q) x l :
  ascending key (x :: l) <->
  (forall y, y ∈ l -> (key x <= key y)%Q) /\ ascending key l.
Proof.
  unfold ascending. split.
  - intros H. split.
    + intros y Hy. apply list_elem_of_lookup_1 in Hy as [j Hj].
      apply (H 0%nat (S j) x y); [lia|reflexivity|exact Hj].
    + intros i j a b Hij Hi Hj. apply (H (S i) (S j) a b); [lia|exact Hi|exact Hj].
  - intros [Hx Hl] i j a b Hij Hi Hj.
    destruct j as [|j]; [lia|]. simpl in Hj.
    destruct i as [|i]; simpl in Hi.
    + injection Hi as <-. apply Hx. apply list_elem_of_lookup_2 in Hj. exact Hj.
    + apply (Hl i j a b); [lia|exact Hi|exact Hj].
Qed.

Lemma insert_by_key_ascending {A} (key : A -> Q) x l :
  ascending key l -> ascending key (insert_by_key key x l).
Proof.
  induction l as [|y l IH]; simpl; intros Hl.
  - apply ascending_cons. split; [|exact Hl].
    intros y Hy. apply elem_of_nil in Hy. contradiction.
  - apply ascending_cons in Hl as Hyl. destruct Hyl as [Hy Hl'].
    destruct (Qle_bool (key x) (key y)) eqn:E; q_tests.
    + apply ascending_cons. split; [|exact Hl].
      intros z Hz. apply elem_of_cons in Hz as [->|Hz]; [exact E|].
      specialize (Hy z Hz). lra.
    + apply ascending_cons. split; [|apply IH, Hl'].
      intros z Hz. rewrite (insert_by_key_perm key x l) in Hz.
      apply elem_of_cons in Hz as [->|Hz]; [lra|apply Hy, Hz].
Qed.

Lemma sort_by_key_ascending {A} (key : A -> Q) l : ascending key (sort_by_key key l).
Proof.
  unfold sort_by_key. induction l as [|x l IH]; simpl.
  - intros i j a b _ Hi. discriminate.
  - apply insert_by_key_ascending, IH.
Qed.

(** X3: the blocking list comes in ascending start depth (closest to the
    opening first), and so do the [remove] steps, which follow it. *)
Theorem blocking_items_ascending_by_depth
    (target_item : Item.t) (placed_items : odict Item.t) :
  ascending RetrievalEngine.start_depth
    (RetrievalEngine._get_blocking_items target_item placed_items).
Proof.
  unfold RetrievalEngine._get_blocking_items.
  destruct (Item.not_placed target_item); [intros i j a b _ Hi; discriminate|].
  destruct (Item.position target_item); [|intros i j a b _ Hi; discriminate].
  apply sort_by_key_ascending.
Qed.

(** X4: [calculate_retrieval_steps] is 0 for an unplaced target and for a
    target whose container is not in the container dictionary; otherwise it
    is the number of [remove] steps of the plan, which has twice that many
    steps plus one. *)
Theorem calculate_retrieval_steps_counts_removals
    (target_item : Item.t) (placed_items : odict Item.t)
    (containers : gmap string Container.t) :
  (Item.not_placed target_item = true ->
   RetrievalEngine.calculate_retrieval_steps target_item placed_items containers = 0%nat) /\
  (forall cid, Item.containerId target_item = Some cid -> containers !! cid = None ->
   RetrievalEngine.calculate_retrieval_steps target_item placed_items containers = 0%nat) /\
  (forall cid, Item.not_placed target_item = false ->
   Item.containerId target_item = Some cid -> is_Some (containers !! cid) ->
   let n := RetrievalEngine.calculate_retrieval_steps target_item placed_items containers in
   n = length (ids_with_action remove
                 (RetrievalEngine.get_retrieval_steps target_item placed_items)) /\
   length (RetrievalEngine.get_retrieval_steps target_item placed_items) = (2 * n + 1)%nat).
Proof.
  unfold RetrievalEngine.calculate_retrieval_steps. split; [|split].
  - intros ->. reflexivity.
  - intros cid -> ->. destruct (Item.not_placed target_item); reflexivity.
  - intros cid Hplaced -> [c ->]. rewrite Hplaced. cbv zeta.
    unfold RetrievalEngine.get_retrieval_steps. rewrite Hplaced. split.
    + rewrite ids_with_action_number_steps, !List.filter_app.
      rewrite filter_pair_same, filter_pair_other by reflexivity.
      simpl. rewrite app_nil_r, !length_map. reflexivity.
    + rewrite length_number_steps, !length_app, !length_map, length_reverse.
      simpl. lia.
Qed.

(** X5: every [remove] step of a plan names a positioned item of the
    dictionary that sits in the target's container and is not the target. *)
Theorem remove_steps_name_other_items_of_the_container
    (target_item : Item.t) (placed_items : odict Item.t) :
  Forall (fun s =>
            step_action s = remove ->
            step_itemId s <> Item.itemId target_item /\
            exists item,
              item ∈ odict_values placed_items /\
              Item.itemId item = step_itemId s /\
              Item.containerId item = Item.containerId target_item /\
              is_Some (Item.position item))
         (RetrievalEngine.get_retrieval_steps target_item placed_items).
Proof.
  apply Forall_forall. intros s Hs Hact.
  destruct (Item.not_placed target_item) eqn:Hplaced.
  { unfold RetrievalEngine.get_retrieval_steps in Hs. rewrite Hplaced in Hs.
    apply elem_of_nil in Hs. contradiction. }
  destruct (Item.position target_item) as [target_pos|] eqn:Hpos.
  - destruct (proj1 (remove_step_iff_is_blocking target_item target_pos placed_items
                       (step_itemId s) Hplaced Hpos)) as (item & Hin & Hb & Hid).
    { exists s. auto. }
    apply is_blocking_spec in Hb as (Hc & Hne & pos & Hp & _).
    split; [congruence|]. exists item. rewrite Hp. eauto.
  - apply not_placed_false_iff in Hplaced as [_ [p Hp]]. congruence.
Qed.

(** ** Retrieving until the uses are spent *)






(** ** Undocking again *)

(** X8: undocking a container that is not in the container dictionary
    reports failure with a count of 0 and changes nothing; this is what
    every second undocking of the same container does. *)
Theorem undocking_unknown_container_changes_nothing
    (undocking_container_id : string) (placed_items : odict Item.t)
    (containers : gmap string Container.t) :
  (containers !! undocking_container_id = None ->
   WasteEngine.execute_undocking undocking_container_id placed_items containers =
     mk_undocking false 0 placed_items containers) /\
  (let r := WasteEngine.execute_undocking undocking_container_id placed_items containers in
   WasteEngine.execute_undocking undocking_container_id (items_after r) (containers_after r) =
     mk_undocking false 0 (items_after r) (containers_after r)).
Proof.
  assert (Habsent : forall items (cs : gmap string Container.t),
            cs !! undocking_container_id = None ->
            WasteEngine.execute_undocking undocking_container_id items cs =
              mk_undocking false 0 items cs).
  { intros items cs H. unfold WasteEngine.execute_undocking. rewrite H. reflexivity. }
  split; [apply Habsent|]. cbv zeta. apply Habsent.
  unfold WasteEngine.execute_undocking.
  destruct (containers !! undocking_container_id) eqn:Hc; simpl.
  - apply lookup_delete_eq.
  - exact Hc.
Qed.

(** ** Outcomes and numbering of the return plan *)


Lemma odict_elem_is_Some {V} (k : string) (v : V) (d : odict V) :
  (k, v) ∈ d -> is_Some (odict_get k d).
Proof.
  induction d as [|[k' v'] d IH]; intros Hin; simpl.
  - apply elem_of_nil in Hin. contradiction.
  - destruct (String.eqb k k') eqn:E; [eauto|].
    apply elem_of_cons in Hin as [[= -> ->]|Hin]; [|apply IH, Hin].
    rewrite String.eqb_refl in E. discriminate.
Qed.

Lemma odict_value_has_key {V} (v : V) (d : odict V) :
  v ∈ odict_values d -> exists k, (k, v) ∈ d.
Proof.
  intros Hv. apply list_elem_of_In, in_map_iff in Hv as ([k v'] & Hs & Hin).
  simpl in Hs. subst v'. exists k. apply list_elem_of_In, Hin.
Qed.

(** In a dictionary keyed by item id, an item of the dictionary is what its
    id looks up. *)
Lemma keyed_by_id_get (d : odict Item.t) (it : Item.t) :
  keyed_by_id d -> it ∈ odict_values d -> odict_get (Item.itemId it) d = Some it.
Proof.
  intros [Hnd Hkey] Hv. apply odict_value_has_key in Hv as [k Hin].
  rewrite <- (Hkey k it Hin). apply odict_elem_get; assumption.
Qed.

Lemma waste_comes_from_item parser d now info :
  info ∈ WasteEngine.identify_waste_items parser d now ->
  exists item, item ∈ odict_values d /\ WasteEngine.waste_entry parser now item = Some info.
Proof. unfold WasteEngine.identify_waste_items. apply list_elem_of_omap. Qed.

Lemma prioritize_keyed parser d containers now info :
  keyed_by_id d ->
  info ∈ WasteEngine.identify_waste_items parser d now ->
  exists item,
    item ∈ odict_values d /\
    WasteEngine.waste_entry parser now item = Some info /\
    WasteEngine.prioritize d containers info =
      Ok (mk_waste_data item info
            (RetrievalEngine.calculate_retrieval_steps item d containers)
            (inject_Z (Z.of_nat (RetrievalEngine.calculate_retrieval_steps item d containers)) -
             inject_Z (Item.priority item) * (1 # 10))%Q).
Proof.
  intros Hkeyed Hinfo. apply waste_comes_from_item in Hinfo as (item & Hin & Hentry).
  exists item. split; [exact Hin|]. split; [exact Hentry|].
  unfold WasteEngine.prioritize, WasteEngine.getitem.
  apply waste_entry_spec in Hentry as Hspec. destruct Hspec as (_ & _ & ->). simpl.
  rewrite (keyed_by_id_get d item Hkeyed Hin). reflexivity.
Qed.

(** The selection loop: numbering, destination and origin of what it has
    put into its two lists, and the limits once something is accepted. *)
Lemma selection_loop_lists undocking_container_id max_weight available_volume
    (prioritized_waste : list WasteData) :
  let sel := foldl (WasteEngine.select_step undocking_container_id max_weight
                      available_volume)
                   WasteEngine.initial_selection prioritized_waste in
  sel_step_counter sel = S (length (sel_return_plan sel)) /\
  length (sel_return_items sel) = length (sel_return_plan sel) /\
  (forall i p, sel_return_plan sel !! i = Some p ->
     plan_step p = S i /\ plan_toContainer p = undocking_container_id /\
     exists wd, wd ∈ prioritized_waste /\ plan_itemId p = Item.itemId (wd_item wd) /\
                plan_fromContainer p = Item.containerId (wd_item wd)) /\
  (forall ri, ri ∈ sel_return_items sel ->
     exists wd, wd ∈ prioritized_waste /\
       ri = mk_return_item (Item.itemId (wd_item wd)) (Item.name (wd_item wd))
                           (waste_reason (wd_waste_info wd))) /\
  (sel_return_plan sel <> [] ->
   (sel_total_weight sel <= max_weight)%Q /\ (sel_total_volume sel <= available_volume)%Q).
Proof.
  induction prioritized_waste as [|wd l IH] using rev_ind.
  - simpl. split; [reflexivity|]. split; [reflexivity|]. split; [|split].
    + intros i p Hp. discriminate.
    + intros ri Hri. apply elem_of_nil in Hri. contradiction.
    + intros H. contradiction.
  - rewrite foldl_app. simpl.
    destruct IH as (Hcount & Hlen & Hplan & Hitems & Hlim).
    set (sel := foldl _ _ l) in *.
    assert (Hplan' : forall i p, sel_return_plan sel !! i = Some p ->
              plan_step p = S i /\ plan_toContainer p = undocking_container_id /\
              exists wd0, wd0 ∈ (l ++ [wd])%list /\
                plan_itemId p = Item.itemId (wd_item wd0) /\
                plan_fromContainer p = Item.containerId (wd_item wd0)).
    { intros i p Hp. destruct (Hplan i p Hp) as (H1 & H2 & wd0 & H3 & H4).
      split; [exact H1|]. split; [exact H2|]. exists wd0.
      split; [apply elem_of_app; left; exact H3|exact H4]. }
    assert (Hitems' : forall ri, ri ∈ sel_return_items sel ->
              exists wd0, wd0 ∈ (l ++ [wd])%list /\
                ri = mk_return_item (Item.itemId (wd_item wd0)) (Item.name (wd_item wd0))
                                    (waste_reason (wd_waste_info wd0))).
    { intros ri Hri. destruct (Hitems ri Hri) as (wd0 & H1 & H2).
      exists wd0. split; [apply elem_of_app; left; exact H1|exact H2]. }
    assert (Hlast : wd ∈ (l ++ [wd])%list).
    { apply elem_of_app. right. apply list_elem_of_singleton. reflexivity. }
    unfold WasteEngine.select_step.
    destruct (Qlt_bool max_weight _) eqn:Hcw;
      [exact (conj Hcount (conj Hlen (conj Hplan' (conj Hitems' Hlim))))|].
    destruct (Qlt_bool available_volume _) eqn:Hcv;
      [exact (conj Hcount (conj Hlen (conj Hplan' (conj Hitems' Hlim))))|].
    q_tests. simpl. rewrite !length_app, Hcount, Hlen. simpl.
    split; [f_equal; lia|]. split; [reflexivity|]. split; [|split].
    + intros i p Hp. apply lookup_app_Some in Hp as [Hp|[Hi Hp]]; [apply Hplan', Hp|].
      apply list_lookup_singleton_Some in Hp as [Hi0 <-]. simpl.
      split; [lia|]. split; [reflexivity|]. exists wd. auto.
    + intros ri Hri. apply elem_of_app in Hri as [Hri|Hri]; [apply Hitems', Hri|].
      apply list_elem_of_singleton in Hri as ->. exists wd. auto.
    + intros _. split; assumption.
Qed.

(** How a returned plan was built. *)
Lemma calculate_return_plan_Ok parser undocking_container_id max_weight placed_items
    containers now plan :
  WasteEngine.calculate_return_plan parser undocking_container_id max_weight
    placed_items containers now = Ok plan ->
  (WasteEngine.identify_waste_items parser placed_items now = [] /\
   plan = mk_return_plan [] []
            (mk_manifest undocking_container_id now [] 0 0)) \/
  (exists c prioritized per_item,
     containers !! undocking_container_id = Some c /\
     WasteEngine.mapM (WasteEngine.prioritize placed_items containers)
       (WasteEngine.identify_waste_items parser placed_items now) = Ok prioritized /\
     let sel := foldl (WasteEngine.select_step undocking_container_id max_weight
                         (Container.get_available_volume c placed_items))
                      WasteEngine.initial_selection
                      (sort_by_key wd_priority_score prioritized) in
     plan = mk_return_plan (sel_return_plan sel)
              (WasteEngine.renumber 1 (concat per_item))
              (mk_manifest undocking_container_id now (sel_return_items sel)
                           (sel_total_volume sel) (sel_total_weight sel))).
Proof.
  unfold WasteEngine.calculate_return_plan. intros Hplan.
  destruct (WasteEngine.identify_waste_items parser placed_items now) as [|w ws] eqn:Hwaste.
  - left. injection Hplan as <-. auto.
  - right.
    destruct (containers !! undocking_container_id) as [c|] eqn:Hc; [|discriminate].
    destruct (WasteEngine.mapM _ (w :: ws)) as [prioritized|] eqn:Hprio;
      simpl in Hplan; [|discriminate].
    destruct (WasteEngine.mapM _ (sel_return_plan _)) as [per_item|] eqn:Hsteps;
      simpl in Hplan; [|discriminate].
    injection Hplan as <-. exists c, prioritized, per_item. auto.
Qed.

Lemma renumber_step counter steps i s :
  WasteEngine.renumber counter steps !! i = Some s -> step s = (counter + i)%nat.
Proof.
  revert counter i. induction steps as [|s0 steps IH]; intros counter i Hs; simpl in Hs.
  - discriminate.
  - destruct i as [|i]; simpl in Hs.
    + injection Hs as <-. simpl. lia.
    + rewrite (IH (S counter) i Hs). lia.
Qed.

(** X9: every plan [calculate_return_plan] returns has its plan steps
    numbered 1, 2, 3, ... in order, each moving an item to the undocking
    container, one manifest entry per plan step, and its retrieval steps
    renumbered 1, 2, 3, ... across the items. *)
Theorem return_plan_steps_are_numbered
    (parser : string -> option datetime) (undocking_container_id : string)
    (max_weight : Q) (placed_items : odict Item.t)
    (containers : gmap string Container.t) (now : datetime) (plan : ReturnPlan)
    (Hplan : WasteEngine.calculate_return_plan parser undocking_container_id max_weight
               placed_items containers now = Ok plan) :
  (forall i p, returnPlan plan !! i = Some p ->
     plan_step p = S i /\ plan_toContainer p = undocking_container_id) /\
  length (returnItems (returnManifest plan)) = length (returnPlan plan) /\
  (forall i s, retrievalSteps plan !! i = Some s -> step s = S i) /\
  undockingContainerId (returnManifest plan) = undocking_container_id.
Proof.
  apply calculate_return_plan_Ok in Hplan
    as [[_ ->]|(c & prioritized & per_item & _ & _ & ->)]; simpl.
  - split; [intros i p Hp; discriminate|]. split; [reflexivity|].
    split; [intros i s Hs; discriminate|reflexivity].
  - destruct (selection_loop_lists undocking_container_id max_weight
                (Container.get_available_volume c placed_items)
                (sort_by_key wd_priority_score prioritized))
      as (_ & Hlen & Hsteps & _ & _).
    split; [|split; [exact Hlen|split; [|reflexivity]]].
    + intros i p Hp. destruct (Hsteps i p Hp) as (H1 & H2 & _). auto.
    + intros i s Hs. apply renumber_step in Hs. lia.
Qed.

(** A run of X9: the sample plan. *)
Lemma return_plan_steps_are_numbered_witness :
  (forall i p, returnPlan sample_plan !! i = Some p ->
     plan_step p = S i /\ plan_toContainer p = "contA") /\
  length (returnItems (returnManifest sample_plan)) = length (returnPlan sample_plan) /\
  (forall i s, retrievalSteps sample_plan !! i = Some s -> step s = S i) /\
  undockingContainerId (returnManifest sample_plan) = "contA".
Proof.
  apply (return_plan_steps_are_numbered fromisoformat_date "contA" 1 waste_store
           sample_containers sample_now sample_plan).
  vm_compute. reflexivity.
Defined.

(** X10: a plan that accepts at least one item keeps its totals within the
    two limits, whatever their sign: [totalWeight <= maxWeight] and
    [totalVolume] is at most the undocking container's available volume. *)
Theorem nonempty_return_plan_within_limits
    (parser : string -> option datetime) (undocking_container_id : string)
    (max_weight : Q) (placed_items : odict Item.t)
    (containers : gmap string Container.t) (now : datetime) (plan : ReturnPlan)
    (Hplan : WasteEngine.calculate_return_plan parser undocking_container_id max_weight
               placed_items containers now = Ok plan)
    (Hnonempty : returnPlan plan <> []) :
  (totalWeight (returnManifest plan) <= max_weight)%Q /\
  exists c, containers !! undocking_container_id = Some c /\
            (totalVolume (returnManifest plan) <=
             Container.get_available_volume c placed_items)%Q.
Proof.
  apply calculate_return_plan_Ok in Hplan
    as [[_ ->]|(c & prioritized & per_item & Hc & _ & ->)]; simpl in *.
  - contradiction.
  - destruct (selection_loop_lists undocking_container_id max_weight
                (Container.get_available_volume c placed_items)
                (sort_by_key wd_priority_score prioritized))
      as (_ & _ & _ & _ & Hlim).
    destruct (Hlim Hnonempty) as [Hw Hv]. split; [exact Hw|]. exists c. auto.
Qed.

(** A run of X10: the sample plan. *)
Lemma nonempty_return_plan_within_limits_witness :
  (totalWeight (returnManifest sample_plan) <= 1)%Q /\
  exists c, sample_containers !! "contA" = Some c /\
            (totalVolume (returnManifest sample_plan) <=
             Container.get_available_volume c waste_store)%Q.
Proof.
  apply (nonempty_return_plan_within_limits fromisoformat_date "contA" 1 waste_store
           sample_containers sample_now sample_plan).
  - vm_compute. reflexivity.
  - discriminate.
Defined.


(** X12: in a dictionary keyed by item id, everything a returned plan
    accepts is waste: each manifest entry repeats the id, name and reason of
    an entry of [identify_waste_items], and each plan step moves such an
    item out of the container the waste list records for it. *)
Theorem return_plan_accepts_only_waste
    (parser : string -> option datetime) (undocking_container_id : string)
    (max_weight : Q) (placed_items : odict Item.t)
    (containers : gmap string Container.t) (now : datetime) (plan : ReturnPlan)
    (Hkeyed : keyed_by_id placed_items)
    (Hplan : WasteEngine.calculate_return_plan parser undocking_container_id max_weight
               placed_items containers now = Ok plan) :
  Forall (fun ri =>
            exists info,
              info ∈ WasteEngine.identify_waste_items parser placed_items now /\
              ri = mk_return_item (waste_itemId info) (waste_name info) (waste_reason info))
         (returnItems (returnManifest plan)) /\
  Forall (fun p =>
            exists info,
              info ∈ WasteEngine.identify_waste_items parser placed_items now /\
              plan_itemId p = waste_itemId info /\
              plan_fromContainer p = waste_containerId info)
         (returnPlan plan).
Proof.
  apply calculate_return_plan_Ok in Hplan
    as [[_ ->]|(c & prioritized & per_item & _ & Hprio & ->)]; simpl.
  { split; apply Forall_nil; exact I. }
  assert (Hwd : forall wd, wd ∈ sort_by_key wd_priority_score prioritized ->
            exists info,
              info ∈ WasteEngine.identify_waste_items parser placed_items now /\
              wd_waste_info wd = info /\
              Item.itemId (wd_item wd) = waste_itemId info /\
              Item.name (wd_item wd) = waste_name info /\
              Item.containerId (wd_item wd) = waste_containerId info).
  { intros wd Hin. apply elem_of_sort_by_key in Hin.
    destruct (mapM_Ok_elem _ _ _ Hprio wd Hin) as (info & Hinfo & Hp).
    destruct (prioritize_keyed parser placed_items containers now info Hkeyed Hinfo)
      as (item & _ & Hentry & Hp').
    rewrite Hp' in Hp. injection Hp as <-. simpl.
    apply waste_entry_spec in Hentry as (_ & _ & ->). simpl. eauto 6. }
  destruct (selection_loop_lists undocking_container_id max_weight
              (Container.get_available_volume c placed_items)
              (sort_by_key wd_priority_score prioritized))
    as (_ & _ & Hsteps & Hitems & _).
  split; apply Forall_forall.
  - intros ri Hri. destruct (Hitems ri Hri) as (wd & Hin & ->).
    destruct (Hwd wd Hin) as (info & Hinfo & -> & -> & -> & _). eauto.
  - intros p Hp. apply list_elem_of_lookup_1 in Hp as [i Hi].
    destruct (Hsteps i p Hi) as (_ & _ & wd & Hin & -> & ->).
    destruct (Hwd wd Hin) as (info & Hinfo & _ & -> & _ & ->). eauto.
Qed.

(** A run of X12: the sample plan. *)
Lemma return_plan_accepts_only_waste_witness :
  Forall (fun ri =>
            exists info,
              info ∈ WasteEngine.identify_waste_items fromisoformat_date waste_store
                       sample_now /\
              ri = mk_return_item (waste_itemId info) (waste_name info) (waste_reason info))
         (returnItems (returnManifest sample_plan)) /\
  Forall (fun p =>
            exists info,
              info ∈ WasteEngine.identify_waste_items fromisoformat_date waste_store
                       sample_now /\
              plan_itemId p = waste_itemId info /\
              plan_fromContainer p = waste_containerId info)
         (returnPlan sample_plan).
Proof.
  apply (return_plan_accepts_only_waste fromisoformat_date "contA" 1 waste_store
           sample_containers sample_now sample_plan).
  - split.
    + refine (bool_decide_unpack (NoDup (odict_keys waste_store)) _). vm_compute. exact I.
    + intros k it Hin. unfold waste_store in Hin.
      repeat (apply elem_of_cons in Hin as [Hin|Hin]; [injection Hin as -> ->; reflexivity|]).
      apply elem_of_nil in Hin. contradiction.
  - vm_compute. reflexivity.
Defined.

(** ** Status and waste *)

(** X13: [get_status] never answers [WASTE]; a dictionary's waste list
    holds exactly the placed items whose status is not [ACTIVE], an
    [EXPIRED] item with the reason "Expired" and a [DEPLETED] one with the
    reason "Out of Uses". *)
Theorem waste_list_matches_status
    (parser : string -> option datetime) (placed_items : odict Item.t) (now : datetime) :
  (forall item, ItemOps.get_status parser item now <> WASTE) /\
  (forall w : WasteInfo,
     w ∈ WasteEngine.identify_waste_items parser placed_items now <->
     exists item,
       item ∈ odict_values placed_items /\
       Item.not_placed item = false /\
       ItemOps.get_status parser item now <> ACTIVE /\
       w = mk_waste (Item.itemId item) (Item.name item)
             (reason_of_status (ItemOps.get_status parser item now))
             (Item.containerId item) (Item.position item)).
Proof.
  split.
  - intros item. unfold ItemOps.get_status.
    destruct (Item.is_expired parser item now), (Item.is_depleted item); discriminate.
  - intros w. unfold WasteEngine.identify_waste_items. rewrite list_elem_of_omap.
    split.
    + intros (item & Hin & Hw). apply waste_entry_spec in Hw as (Hp & Hc & ->).
      exists item. split; [exact Hin|]. split; [exact Hp|].
      unfold ItemOps.get_status.
      destruct (Item.is_expired parser item now), (Item.is_depleted item);
        simpl; try (split; [discriminate|reflexivity]).
      destruct Hc; discriminate.
    + intros (item & Hin & Hp & Hs & ->). exists item. split; [exact Hin|].
      apply waste_entry_spec. split; [exact Hp|].
      unfold ItemOps.get_status in *.
      destruct (Item.is_expired parser item now), (Item.is_depleted item);
        simpl; try (split; [auto|reflexivity]); contradiction.
Qed.

(** ** Waste statistics and consolidation *)

Lemma foldM_app {A B} (f : B -> A -> result B) (b : B) (l1 l2 : list A) :
  WasteReports.foldM f b (l1 ++ l2) =
  rbind (WasteReports.foldM f b l1) (fun b' => WasteReports.foldM f b' l2).
Proof.
  revert b. induction l1 as [|a l1 IH]; intros b; simpl; [reflexivity|].
  destruct (f b a); simpl; [apply IH|reflexivity].
Qed.

(** Invariants of a loop that can raise: what holds of the initial state
    and is kept by every iteration that does not raise holds of the final
    state. *)
Lemma foldM_invariant {A B} (f : B -> A -> result B) (P : list A -> B -> Prop)
    (b0 : B) (l : list A) (b : B) :
  P [] b0 ->
  (forall done a st st', a ∈ l -> P done st -> f st a = Ok st' -> P (done ++ [a])%list st') ->
  WasteReports.foldM f b0 l = Ok b ->
  P l b.
Proof.
  intros Hinit Hstep. revert b.
  induction l as [|a l IH] using rev_ind; intros b Hfold.
  - simpl in Hfold. injection Hfold as <-. exact Hinit.
  - rewrite foldM_app in Hfold.
    destruct (WasteReports.foldM f b0 l) as [st|] eqn:Hl; simpl in Hfold; [|discriminate].
    destruct (f st a) as [st'|] eqn:Hfa; simpl in Hfold; [|discriminate].
    injection Hfold as <-.
    apply (Hstep l a st st'); [| |exact Hfa].
    + apply elem_of_app. right. apply list_elem_of_singleton. reflexivity.
    + apply IH; [|reflexivity].
      intros done a' s s' Ha'. apply Hstep. apply elem_of_app. left. exact Ha'.
Qed.

Lemma count_reason_snoc reason l info :
  count_reason reason (l ++ [info]) =
  (count_reason reason l + if String.eqb (waste_reason info) reason then 1 else 0)%nat.
Proof.
  unfold count_reason. rewrite List.filter_app, length_app. simpl.
  destruct (String.eqb (waste_reason info) reason); reflexivity.
Qed.

(** X14: when [get_waste_statistics] returns, [totalWasteItems] is the
    length of the waste list, the two counters of [wasteByReason] count the
    entries with the reason "Expired" and with the reason "Out of Uses" and
    add up to [totalWasteItems], and [wasteByZone] has no zone but
    "Unknown". *)
Theorem waste_statistics_count_every_entry
    (parser : string -> option datetime) (placed_items : odict Item.t) (now : datetime)
    (stats : WasteStatistics)
    (Hstats : WasteReports.get_waste_statistics parser placed_items now = Ok stats) :
  let waste := WasteEngine.identify_waste_items parser placed_items now in
  totalWasteItems stats = length waste /\
  wasteByReason stats =
    [("Expired", count_reason "Expired" waste);
     ("Out of Uses", count_reason "Out of Uses" waste)] /\
  (count_reason "Expired" waste + count_reason "Out of Uses" waste)%nat =
    totalWasteItems stats /\
  (forall zone n, odict_get zone (wasteByZone stats) = Some n -> zone = "Unknown").
Proof.
  cbv zeta. unfold WasteReports.get_waste_statistics in Hstats.
  set (waste := WasteEngine.identify_waste_items parser placed_items now) in *.
  pose (P := fun (done : list WasteInfo) (st : WasteStatistics) =>
       totalWasteItems st = length waste /\
       wasteByReason st =
         [("Expired", count_reason "Expired" done);
          ("Out of Uses", count_reason "Out of Uses" done)] /\
       (count_reason "Expired" done + count_reason "Out of Uses" done)%nat = length done /\
       (wasteByZone st = [] \/ exists n, wasteByZone st = [("Unknown", n)])).
  assert (Hinv : P waste stats).
  { refine (foldM_invariant (WasteReports.stats_step placed_items) P _ waste stats
              _ _ Hstats); unfold P.
    - simpl. auto.
    - intros done info st st' Hinfo (Htotal & Hreason & Hsum & Hzone) Hstep.
      apply waste_comes_from_item in Hinfo as (item & _ & Hentry).
      apply waste_entry_spec in Hentry as (_ & _ & Hw).
      unfold WasteReports.stats_step in Hstep.
      destruct (WasteEngine.getitem placed_items (waste_itemId info)) as [it|];
        simpl in Hstep; [|discriminate].
      rewrite Hreason in Hstep. rewrite !count_reason_snoc, length_app.
      assert (Hz : exists bz,
                (if truthy_str (Item.containerId it)
                 then WasteReports.odict_incr "Unknown"
                        (if bool_decide (is_Some (odict_get "Unknown" (wasteByZone st)))
                         then wasteByZone st
                         else WasteReports.odict_put "Unknown" 0%nat (wasteByZone st))
                 else Ok (wasteByZone st)) = Ok bz /\
                (bz = [] \/ exists n, bz = [("Unknown", n)])).
      { destruct (truthy_str (Item.containerId it)); [|eauto].
        destruct Hzone as [->|[n ->]]; simpl; eauto. }
      destruct Hz as (bz & Hbz & Hshape).
      subst info. simpl in *.
      destruct (Item.is_expired parser item now); simpl in *;
        rewrite Hbz in Hstep; simpl in Hstep; injection Hstep as <-; simpl;
        (split; [exact Htotal|]); (split; [f_equal; [f_equal; lia|f_equal; f_equal; lia]|]);
        (split; [lia|exact Hshape]). }
  destruct Hinv as (Htotal & Hreason & Hsum & Hzone).
  split; [exact Htotal|]. split; [exact Hreason|]. split; [lia|].
  intros zone n Hz. destruct Hzone as [Hnil|[m Hone]].
  - rewrite Hnil in Hz. discriminate.
  - rewrite Hone in Hz. simpl in Hz.
    destruct (String.eqb zone "Unknown") eqn:E; [|discriminate].
    apply String.eqb_eq, E.
Qed.

(** A run of X14: the statistics of [waste_store]. *)
Lemma waste_statistics_count_every_entry_witness :
  let waste := WasteEngine.identify_waste_items fromisoformat_date waste_store sample_now in
  totalWasteItems sample_statistics = length waste /\
  wasteByReason sample_statistics =
    [("Expired", count_reason "Expired" waste);
     ("Out of Uses", count_reason "Out of Uses" waste)] /\
  (count_reason "Expired" waste + count_reason "Out of Uses" waste)%nat =
    totalWasteItems sample_statistics /\
  (forall zone n, odict_get zone (wasteByZone sample_statistics) = Some n ->
                  zone = "Unknown").
Proof.
  apply (waste_statistics_count_every_entry fromisoformat_date waste_store sample_now
           sample_statistics).
  vm_compute. reflexivity.
Defined.

(** The consolidation loop: numbering, direction and volume of the moves
    planned so far. *)
Lemma consolidation_loop_invariant parser placed_items target_container_id
    available_volume now (st : Consolidation) :
  WasteReports.foldM
    (WasteReports.consolidation_step placed_items target_container_id available_volume)
    (mk_consolidation [] 1%nat 0)
    (WasteEngine.identify_waste_items parser placed_items now) = Ok st ->
  cons_step_counter st = S (length (cons_plan st)) /\
  (forall i m, cons_plan st !! i = Some m ->
     move_step m = S i /\ move_action m = "move" /\
     move_toContainer m = target_container_id /\
     move_fromContainer m <> Some target_container_id) /\
  (exists moved : list Item.t,
     (forall it, it ∈ moved -> it ∈ odict_values placed_items) /\
     map move_itemId (cons_plan st) = map Item.itemId moved /\
     (cons_used_volume st == sum_Q (map Item.get_volume moved))%Q) /\
  (cons_plan st <> [] -> (cons_used_volume st <= available_volume)%Q).
Proof.
  intros Hfold.
  pose (P := fun (_ : list WasteInfo) (st : Consolidation) =>
    cons_step_counter st = S (length (cons_plan st)) /\
    (forall i m, cons_plan st !! i = Some m ->
       move_step m = S i /\ move_action m = "move" /\
       move_toContainer m = target_container_id /\
       move_fromContainer m <> Some target_container_id) /\
    (exists moved : list Item.t,
       (forall it, it ∈ moved -> it ∈ odict_values placed_items) /\
       map move_itemId (cons_plan st) = map Item.itemId moved /\
       (cons_used_volume st == sum_Q (map Item.get_volume moved))%Q) /\
    (cons_plan st <> [] -> (cons_used_volume st <= available_volume)%Q)).
  refine (foldM_invariant _ P _ _ st _ _ Hfold); unfold P.
  - simpl. split; [reflexivity|]. split; [intros i m Hm; discriminate|].
    split; [|intros H; contradiction].
    exists []. simpl. split; [|split; reflexivity].
    intros it Hit. apply elem_of_nil in Hit. contradiction.
  - intros _ info s s' _ (Hcount & Hsteps & (moved & Hsub & Hids & Hvol) & Hlim) Hstep.
    unfold WasteReports.consolidation_step, WasteEngine.getitem in Hstep.
    destruct (odict_get (waste_itemId info) placed_items) as [item|] eqn:Hget;
      simpl in Hstep; [|discriminate].
    destruct (Qle_bool _ available_volume) eqn:Hfit;
      [|injection Hstep as <-; eauto 10].
    destruct (bool_decide _) eqn:Hthere; simpl in Hstep;
      [injection Hstep as <-; eauto 10|].
    injection Hstep as <-. simpl. q_tests.
    apply bool_decide_eq_false in Hthere.
    rewrite length_app, Hcount. simpl. split; [f_equal; lia|]. split; [|split].
    + intros i m Hm. apply lookup_app_Some in Hm as [Hm|[Hi Hm]]; [apply Hsteps, Hm|].
      apply list_lookup_singleton_Some in Hm as [Hi0 <-]. simpl.
      split; [lia|]. auto.
    + exists (moved ++ [item])%list. split; [|split].
      * intros it Hit. apply elem_of_app in Hit as [Hit|Hit]; [apply Hsub, Hit|].
        apply list_elem_of_singleton in Hit as ->.
        apply (odict_get_Some_value _ _ _ Hget).
      * rewrite !map_app, Hids. reflexivity.
      * rewrite map_app. simpl map. rewrite sum_Q_snoc, Hvol. reflexivity.
    + intros _. exact Hfit.
Qed.

(** X15: when [suggest_waste_consolidation] returns, its steps are numbered
    1, 2, 3, ... in order, each is a "move" into the target container of an
    item that is not already there, and, if there is any step, the moved
    items' volumes add up to at most the target container's available
    volume. *)
Theorem waste_consolidation_moves_fit_the_target
    (parser : string -> option datetime) (placed_items : odict Item.t)
    (containers : gmap string Container.t) (target_container_id : string)
    (now : datetime) (plan : list ConsolidationStep)
    (Hplan : WasteReports.suggest_waste_consolidation parser placed_items containers
               target_container_id now = Ok plan) :
  (forall i m, plan !! i = Some m ->
     move_step m = S i /\ move_action m = "move" /\
     move_toContainer m = target_container_id /\
     move_fromContainer m <> Some target_container_id) /\
  (plan <> [] ->
   exists c (moved : list Item.t),
     containers !! target_container_id = Some c /\
     (forall it, it ∈ moved -> it ∈ odict_values placed_items) /\
     map move_itemId plan = map Item.itemId moved /\
     (sum_Q (map Item.get_volume moved) <=
      Container.get_available_volume c placed_items)%Q).
Proof.
  unfold WasteReports.suggest_waste_consolidation in Hplan.
  destruct (WasteEngine.identify_waste_items parser placed_items now) as [|w ws] eqn:Hwaste.
  { injection Hplan as <-. split; [intros i m Hm; discriminate|intros H; contradiction]. }
  destruct (containers !! target_container_id) as [c|] eqn:Hc.
  2: { injection Hplan as <-.
       split; [intros i m Hm; discriminate|intros H; contradiction]. }
  destruct (WasteReports.foldM _ _ (w :: ws)) as [st|] eqn:Hfold; simpl in Hplan;
    [|discriminate].
  injection Hplan as <-. rewrite <- Hwaste in Hfold.
  apply consolidation_loop_invariant in Hfold
    as (_ & Hsteps & (moved & Hsub & Hids & Hvol) & Hlim).
  split; [exact Hsteps|]. intros Hne. exists c, moved.
  split; [reflexivity|]. split; [exact Hsub|]. split; [exact Hids|].
  rewrite <- Hvol. apply Hlim, Hne.
Qed.

(** A run of X15: consolidating [waste_store] into [contB]. *)
Lemma waste_consolidation_moves_fit_the_target_witness :
  (forall i m, sample_consolidation !! i = Some m ->
     move_step m = S i /\ move_action m = "move" /\
     move_toContainer m = "contB" /\
     move_fromContainer m <> Some "contB") /\
  (sample_consolidation <> [] ->
   exists c (moved : list Item.t),
     sample_containers !! "contB" = Some c /\
     (forall it, it ∈ moved -> it ∈ odict_values waste_store) /\
     map move_itemId sample_consolidation = map Item.itemId moved /\
     (sum_Q (map Item.get_volume moved) <=
      Container.get_available_volume c waste_store)%Q).
Proof.
  apply (waste_consolidation_moves_fit_the_target fromisoformat_date waste_store
           sample_containers "contB" sample_now sample_consolidation).
  vm_compute. reflexivity.
Defined.

(** ** Spatial primitives *)

Lemma overlaps_with_swap (a b : BoundingBox.t) (eps : Q) :
  BoundingBox.overlaps_with a b eps = BoundingBox.overlaps_with b a eps.
Proof.
  unfold BoundingBox.overlaps_with. f_equal.
  repeat match goal with
         | |- context [Qle_bool ?x ?y] =>
             let E := fresh "E" in destruct (Qle_bool x y) eqn:E
         end;
    try reflexivity; exfalso; q_tests; lra.
Qed.

(** X16: the overlap tests that compare the same bounds in both call orders
    give the same answer whichever of the two boxes comes first: the plane
    test of the retrieval engine, the box test of [can_place_item], the
    free-space test and the plane test of the container state.  Both call
    orders evaluate the same comparisons, so no arithmetic is involved. *)
Theorem overlap_tests_agree_in_both_orders
    (s1 e1 s2 e2 : Coordinates3D.t) (a b : AABB) (f g : FreeSpace.t)
    (p q : PlacedItem.t) :
  RetrievalEngine._overlaps_in_plane s1 e1 s2 e2 =
  RetrievalEngine._overlaps_in_plane s2 e2 s1 e1 /\
  aabb_overlap a b = aabb_overlap b a /\
  ContainerState._spaces_overlap f g = ContainerState._spaces_overlap g f /\
  StateRetrieval._boxes_overlap_xy p q = StateRetrieval._boxes_overlap_xy q p.
Proof.
  split; [|split; [apply aabb_overlap_sym|split]].
  - unfold RetrievalEngine._overlaps_in_plane.
    destruct (Qle_bool (Coordinates3D.width e1) (Coordinates3D.width s2)),
             (Qle_bool (Coordinates3D.width e2) (Coordinates3D.width s1)),
             (Qle_bool (Coordinates3D.height e1) (Coordinates3D.height s2)),
             (Qle_bool (Coordinates3D.height e2) (Coordinates3D.height s1));
      reflexivity.
  - unfold ContainerState._spaces_overlap. f_equal.
    destruct (Qle_bool (FreeSpace.x f + FreeSpace.width f) (FreeSpace.x g)),
             (Qle_bool (FreeSpace.x g + FreeSpace.width g) (FreeSpace.x f)),
             (Qle_bool (FreeSpace.y f + FreeSpace.depth f) (FreeSpace.y g)),
             (Qle_bool (FreeSpace.y g + FreeSpace.depth g) (FreeSpace.y f)),
             (Qle_bool (FreeSpace.z f + FreeSpace.height f) (FreeSpace.z g)),
             (Qle_bool (FreeSpace.z g + FreeSpace.height g) (FreeSpace.z f));
      reflexivity.
  - unfold StateRetrieval._boxes_overlap_xy. f_equal.
    destruct (Qle_bool (PlacedItem.x p + PlacedItem.width p) (PlacedItem.x q)),
             (Qle_bool (PlacedItem.x q + PlacedItem.width q) (PlacedItem.x p)),
             (Qle_bool (PlacedItem.y p + PlacedItem.depth p) (PlacedItem.y q)),
             (Qle_bool (PlacedItem.y q + PlacedItem.depth q) (PlacedItem.y p));
      reflexivity.
Qed.

(** X17: for a tolerance that is not negative, two boxes of which one ends
    where the other starts on some axis (a shared face) do not overlap, and
    every overlap found with the tolerance is an overlap without it. *)
Theorem overlaps_with_tolerance_only_removes_overlaps
    (a b : BoundingBox.t) (eps : Q) (Heps : (0 <= eps)%Q) :
  ((Coordinates3D.width (BoundingBox.end_ a) <= Coordinates3D.width (BoundingBox.start b) \/
    Coordinates3D.depth (BoundingBox.end_ a) <= Coordinates3D.depth (BoundingBox.start b) \/
    Coordinates3D.height (BoundingBox.end_ a) <= Coordinates3D.height (BoundingBox.start b))%Q ->
   BoundingBox.overlaps_with a b eps = false /\
   BoundingBox.overlaps_with b a eps = false) /\
  (BoundingBox.overlaps_with a b eps = true -> BoundingBox.overlaps_with a b 0 = true).
Proof.
  split.
  - intros Htouch.
    assert (Hab : BoundingBox.overlaps_with a b eps = false).
    { unfold BoundingBox.overlaps_with. apply negb_false_iff.
      repeat rewrite orb_true_iff. rewrite !Qle_bool_iff.
      destruct Htouch as [H|[H|H]];
        [do 5 left | do 3 left; right | left; right]; lra. }
    split; [exact Hab|]. rewrite <- overlaps_with_swap. exact Hab.
  - unfold BoundingBox.overlaps_with. intros H. q_tests.
    apply negb_true_iff. repeat (apply orb_false_iff; split);
      apply Qle_bool_false_iff; lra.
Qed.

(** A run of X17: two boxes sharing a face, default tolerance. *)
Lemma overlaps_with_tolerance_only_removes_overlaps_witness :
  ((Coordinates3D.width (BoundingBox.end_ left_box) <=
    Coordinates3D.width (BoundingBox.start right_box) \/
    Coordinates3D.depth (BoundingBox.end_ left_box) <=
    Coordinates3D.depth (BoundingBox.start right_box) \/
    Coordinates3D.height (BoundingBox.end_ left_box) <=
    Coordinates3D.height (BoundingBox.start right_box))%Q ->
   BoundingBox.overlaps_with left_box right_box BoundingBox.epsilon = false /\
   BoundingBox.overlaps_with right_box left_box BoundingBox.epsilon = false) /\
  (BoundingBox.overlaps_with left_box right_box BoundingBox.epsilon = true ->
   BoundingBox.overlaps_with left_box right_box 0 = true).
Proof.
  apply (overlaps_with_tolerance_only_removes_overlaps left_box right_box
           BoundingBox.epsilon).
  vm_compute. discriminate.
Defined.

(** X18: [from_dict] undoes [to_dict], reading a position dictionary undoes
    [to_position_dict], and [from_dict] raises [KeyError] exactly when one
    of the keys "width", "depth", "height" is missing. *)
Theorem coordinate_dicts_round_trip (c : Coordinates3D.t) (b : BoundingBox.t)
    (coord_dict : odict Q) :
  CoordinateDicts.from_dict (CoordinateDicts.to_dict c) = Ok c /\
  CoordinateDicts.read_position (CoordinateDicts.to_position_dict b) = Ok b /\
  (CoordinateDicts.from_dict coord_dict = Raise KeyError <->
   odict_get "width" coord_dict = None \/ odict_get "depth" coord_dict = None \/
   odict_get "height" coord_dict = None) /\
  (forall w d h,
     odict_get "width" coord_dict = Some w -> odict_get "depth" coord_dict = Some d ->
     odict_get "height" coord_dict = Some h ->
     CoordinateDicts.from_dict coord_dict = Ok (Coordinates3D.mk w d h)).
Proof.
  split; [destruct c; reflexivity|].
  split; [destruct b as [[] []]; reflexivity|].
  unfold CoordinateDicts.from_dict, WasteEngine.getitem. split.
  - destruct (odict_get "width" coord_dict), (odict_get "depth" coord_dict),
             (odict_get "height" coord_dict); simpl; split; auto;
      try discriminate; intros [H|[H|H]]; discriminate.
  - intros w d h -> -> ->. reflexivity.
Qed.

(** ** Bookkeeping of the container state *)

Lemma length_update_free_spaces s x y z w d h :
  (length (ContainerState._update_free_spaces s x y z w d h) <= 50)%nat.
Proof.
  unfold ContainerState._update_free_spaces, ContainerState.max_free_spaces.
  destruct (Nat.ltb_spec 50 (length (flat_map
              (ContainerState.split_or_keep (FreeSpace.mk x y z w d h))
              (ContainerState.free_spaces s)))).
  - rewrite length_take. lia.
  - assumption.
Qed.

(** X19: after any sequence of [place_item] calls on a fresh container
    state, the dimensions, the zone and [total_volume] are those given at
    creation, and [used_volume] is the running sum of the volumes of the
    placed items, added up from 0 in the order of placement. *)
Theorem place_item_tracks_used_volume
    (cid : string) (w d h : Q) (zn : string) (calls : list place_call) :
  let s := run_calls (ContainerState.init cid w d h zn) calls in
  ContainerState.container_id s = cid /\
  ContainerState.width s = w /\ ContainerState.depth s = d /\
  ContainerState.height s = h /\ ContainerState.zone s = zn /\
  ContainerState.total_volume s = (w * d * h)%Q /\
  ContainerState.used_volume s =
  running_sum (map PlacedItem.get_volume (ContainerState.placed_items s)).
Proof.
  cbv zeta. induction calls as [|c cs IH] using rev_ind.
  - unfold run_calls. simpl. repeat split; reflexivity.
  - rewrite run_calls_snoc.
    destruct (do_call_cases (run_calls (ContainerState.init cid w d h zn) cs) c)
      as [(_ & -> & _)|(_ & _ & ->)]; [exact IH|].
    destruct IH as (H1 & H2 & H3 & H4 & H5 & H6 & H7). simpl.
    repeat (split; [assumption|]).
    unfold running_sum. rewrite map_app, foldl_app. simpl.
    fold (running_sum (map PlacedItem.get_volume
            (ContainerState.placed_items
               (run_calls (ContainerState.init cid w d h zn) cs)))).
    rewrite <- H7. reflexivity.
Qed.

(** X20: a container state never holds more than 50 free-space boxes,
    whatever sequence of [place_item] calls it has gone through. *)
Theorem free_spaces_at_most_fifty
    (cid : string) (w d h : Q) (zn : string) (calls : list place_call) :
  (length (ContainerState.free_spaces
             (run_calls (ContainerState.init cid w d h zn) calls)) <= 50)%nat.
Proof.
  induction calls as [|c cs IH] using rev_ind.
  - unfold run_calls. simpl. lia.
  - rewrite run_calls_snoc.
    destruct (do_call_cases (run_calls (ContainerState.init cid w d h zn) cs) c)
      as [(_ & -> & _)|(_ & _ & ->)]; [exact IH|].
    simpl. apply length_update_free_spaces.
Qed.

(** ** Searching a position *)

Lemma first_position_Some test candidates c :
  ContainerStateOps.first_position test candidates = Some c ->
  c ∈ candidates /\ test c = true.
Proof.
  induction candidates as [|c0 cs IH]; simpl; [discriminate|].
  destruct (test c0) eqn:E.
  - intros [= <-]. split; [apply list_elem_of_here|exact E].
  - intros H. destruct (IH H) as [Hin Ht]. split; [apply list_elem_of_further, Hin|exact Ht].
Qed.

Lemma scan_x_Found s w d h z y xs n x' y' z' :
  ContainerStateOps.scan_x s w d h z y xs n = Found x' y' z' ->
  ContainerState.can_place_item s x' y' z' w d h = true.
Proof.
  revert n. induction xs as [|x xs IH]; intros n;
    cbn [ContainerStateOps.scan_x]; [discriminate|].
  destruct (ContainerStateOps.max_grid_points <? S n)%nat; [discriminate|].
  destruct (ContainerState.can_place_item s (inject_Z x) (inject_Z y) z w d h) eqn:E.
  - intros [= <- <- <-]. exact E.
  - apply IH.
Qed.

Lemma scan_y_Found s w d h z ys xs n x' y' z' :
  ContainerStateOps.scan_y s w d h z ys xs n = Found x' y' z' ->
  ContainerState.can_place_item s x' y' z' w d h = true.
Proof.
  revert n. induction ys as [|y ys IH]; intros n;
    cbn [ContainerStateOps.scan_y]; [discriminate|].
  destruct (ContainerStateOps.max_grid_points <=? n)%nat; [discriminate|].
  destruct (ContainerStateOps.scan_x s w d h z y xs n) eqn:E.
  - intros [= <- <- <-]. apply (scan_x_Found _ _ _ _ _ _ _ _ _ _ _ E).
  - apply IH.
Qed.

Lemma scan_z_Found s w d h zs ys xs n x' y' z' :
  ContainerStateOps.scan_z s w d h zs ys xs n = Found x' y' z' ->
  ContainerState.can_place_item s x' y' z' w d h = true.
Proof.
  revert n. induction zs as [|z zs IH]; intros n;
    cbn [ContainerStateOps.scan_z]; [discriminate|].
  destruct (ContainerStateOps.max_grid_points <=? n)%nat; [discriminate|].
  destruct (ContainerStateOps.scan_y s w d h z ys xs n) eqn:E.
  - intros [= <- <- <-]. apply (scan_y_Found _ _ _ _ _ _ _ _ _ _ _ E).
  - apply IH.
Qed.

Lemma find_position_can_place s w d h priority x y z :
  ContainerStateOps.find_position s w d h priority = Some (x, y, z) ->
  ContainerState.can_place_item s x y z w d h = true.
Proof.
  unfold ContainerStateOps.find_position. cbv zeta.
  lazymatch goal with
  | |- match ?c with _ => _ end = _ -> _ => destruct c as [p|] eqn:Hcorner
  end.
  { intros [= ->]. apply first_position_Some in Hcorner as [_ Hok].
    apply andb_true_iff in Hok as [_ Hok]. exact Hok. }
  lazymatch goal with
  | |- match ?c with _ => _ end = _ -> _ => destruct c as [p|] eqn:Hspace
  end.
  { intros [= ->]. apply first_position_Some in Hspace as [_ Hok]. exact Hok. }
  lazymatch goal with
  | |- match ?c with _ => _ end = _ -> _ => destruct c eqn:Hscan
  end; [|discriminate].
  intros [= <- <- <-]. apply (scan_z_Found _ _ _ _ _ _ _ _ _ _ _ Hscan).
Qed.

(** X21: a position returned by [find_position] is one [can_place_item]
    accepts: the box lies inside the container and collides with no placed
    item, so the item is no larger than the container on any axis and
    [place_item] at that position succeeds. *)
Theorem find_position_returns_placeable_position
    (s : ContainerState.t) (width depth height : Q) (priority : Z) (x y z : Q)
    (item_id : string) (original_dims : Q * Q * Q)
    (Hfound : ContainerStateOps.find_position s width depth height priority = Some (x, y, z)) :
  ContainerState.can_place_item s x y z width depth height = true /\
  aabb_within s (mk_aabb x y z (x + width) (y + depth) (z + height)) /\
  (forall p, p ∈ ContainerState.placed_items s ->
     aabb_overlap (mk_aabb x y z (x + width) (y + depth) (z + height))
                  (PlacedItem.get_aabb p) = false) /\
  (width <= ContainerState.width s /\ depth <= ContainerState.depth s /\
   height <= ContainerState.height s)%Q /\
  fst (ContainerState.place_item s item_id x y z width depth height
         original_dims priority) = true.
Proof.
  apply find_position_can_place in Hfound as Hcan.
  destruct (can_place_item_spec _ _ _ _ _ _ _ Hcan) as [Hin Hfree].
  split; [exact Hcan|]. split; [exact Hin|]. split; [exact Hfree|]. split.
  - unfold aabb_within in Hin. simpl in Hin. lra.
  - unfold ContainerState.place_item. rewrite Hcan. reflexivity.
Qed.

(** A run of X21: the 10 x 10 x 10 item in the empty cube. *)
Lemma find_position_returns_placeable_position_witness :
  ContainerState.can_place_item fresh_cube 0 0 0 10 10 10 = true /\
  aabb_within fresh_cube (mk_aabb 0 0 0 (0 + 10) (0 + 10) (0 + 10)) /\
  (forall p, p ∈ ContainerState.placed_items fresh_cube ->
     aabb_overlap (mk_aabb 0 0 0 (0 + 10) (0 + 10) (0 + 10))
                  (PlacedItem.get_aabb p) = false) /\
  (10 <= ContainerState.width fresh_cube /\ 10 <= ContainerState.depth fresh_cube /\
   10 <= ContainerState.height fresh_cube)%Q /\
  fst (ContainerState.place_item fresh_cube "000001" 0 0 0 10 10 10
         (10, 10, 10)%Q 50) = true.
Proof.
  apply (find_position_returns_placeable_position fresh_cube 10 10 10 50 0 0 0
           "000001" (10, 10, 10)%Q).
  reflexivity.
Defined.

(** X22: [find_position] tries the origin corner first: whenever the item
    can be placed at (0, 0, 0) that is the answer, and in a fresh container
    state every item no larger than the container gets (0, 0, 0). *)
Theorem find_position_prefers_origin_corner
    (s : ContainerState.t) (width depth height : Q) (priority : Z) :
  (ContainerState.can_place_item s 0 0 0 width depth height = true ->
   ContainerStateOps.find_position s width depth height priority = Some (0, 0, 0)%Q) /\
  (forall cid W D H zn,
     (width <= W)%Q -> (depth <= D)%Q -> (height <= H)%Q ->
     ContainerStateOps.find_position (ContainerState.init cid W D H zn)
       width depth height priority = Some (0, 0, 0)%Q).
Proof.
  assert (Horigin : forall s0,
            ContainerState.can_place_item s0 0 0 0 width depth height = true ->
            ContainerStateOps.find_position s0 width depth height priority =
              Some (0, 0, 0)%Q).
  { intros s0 Hcan. unfold ContainerStateOps.find_position.
    destruct (can_place_item_spec _ _ _ _ _ _ _ Hcan) as [Hin _].
    unfold aabb_within in Hin. simpl in Hin.
    destruct Hin as (_ & Hx & _ & Hy & _ & Hz).
    unfold ContainerStateOps.first_position at 1.
    rewrite Hcan.
    apply Qle_bool_iff in Hx, Hy, Hz. rewrite Hx, Hy, Hz. reflexivity. }
  split; [apply Horigin|].
  intros cid W D H zn Hw Hd Hh. apply Horigin.
  unfold ContainerState.can_place_item. simpl.
  assert (E1 : Qlt_bool W (0 + width) = false) by (apply Qlt_bool_false_iff; lra).
  assert (E2 : Qlt_bool D (0 + depth) = false) by (apply Qlt_bool_false_iff; lra).
  assert (E3 : Qlt_bool H (0 + height) = false) by (apply Qlt_bool_false_iff; lra).
  rewrite E1, E2, E3. reflexivity.
Qed.

(** ** The largest free space and the orientations that fit it *)

Lemma max_by_key_spec {A} (key : A -> Q) (first : A) (rest : list A) :
  max_by_key key first rest ∈ first :: rest /\
  forall x, x ∈ first :: rest -> (key x <= key (max_by_key key first rest))%Q.
Proof.
  unfold max_by_key. revert first.
  induction rest as [|y rest IH]; intros first; simpl.
  - split; [apply list_elem_of_here|].
    intros x Hx. apply list_elem_of_singleton in Hx as ->. lra.
  - destruct (Qlt_bool (key first) (key y)) eqn:E; q_tests.
    + destruct (IH y) as [Hin Hmax]. split; [apply list_elem_of_further, Hin|].
      intros x Hx. apply elem_of_cons in Hx as [->|Hx].
      * specialize (Hmax y (list_elem_of_here _ _)). lra.
      * apply Hmax, Hx.
    + destruct (IH first) as [Hin Hmax]. split.
      * apply elem_of_cons in Hin as [->|Hin]; [apply list_elem_of_here|].
        apply list_elem_of_further, list_elem_of_further, Hin.
      * intros x Hx. apply elem_of_cons in Hx as [->|Hx];
          [apply Hmax, list_elem_of_here|].
        apply elem_of_cons in Hx as [->|Hx].
        -- specialize (Hmax first (list_elem_of_here _ _)). lra.
        -- apply Hmax, list_elem_of_further, Hx.
Qed.

(** X24: [get_largest_free_space] answers [None] exactly when the state has
    no free-space box; otherwise it answers one of the boxes, and no box of
    the state has a larger volume. *)
Theorem largest_free_space_is_largest (s : ContainerState.t) :
  (ContainerStateOps.get_largest_free_space s = None <->
   ContainerState.free_spaces s = []) /\
  (forall f, ContainerStateOps.get_largest_free_space s = Some f ->
     f ∈ ContainerState.free_spaces s /\
     forall g, g ∈ ContainerState.free_spaces s ->
               (FreeSpace.volume g <= FreeSpace.volume f)%Q).
Proof.
  unfold ContainerStateOps.get_largest_free_space.
  destruct (ContainerState.free_spaces s) as [|f0 fs].
  - split; [tauto|]. intros f Hf. discriminate.
  - split; [split; discriminate|].
    intros f [= <-]. apply max_by_key_spec.
Qed.


(** ** Retrieval steps computed from a container state *)

Lemma py_getitem_nat {A} (l : list A) (i : nat) (a : A) :
  l !! i = Some a -> py_getitem l (Z.of_nat i) = Some a.
Proof.
  intros Hi. apply lookup_lt_Some in Hi as Hlt. unfold py_getitem.
  destruct (Z.ltb_spec (Z.of_nat i) 0); [lia|].
  destruct (Z.ltb_spec (Z.of_nat i) 0); [lia|].
  destruct (Z.leb_spec (Z.of_nat (length l)) (Z.of_nat i)); [lia|].
  simpl. rewrite Nat2Z.id. exact Hi.
Qed.

Lemma remove_loop_spec items item_id target c :
  map sstep (StateRetrieval.remove_loop items item_id target c) =
    seq c (length (StateRetrieval.remove_loop items item_id target c)) /\
  Forall (fun st => sstep_action st = remove)
         (StateRetrieval.remove_loop items item_id target c).
Proof.
  revert c. induction items as [|item items IH]; intros c; simpl.
  - split; [reflexivity|apply Forall_nil; exact I].
  - destruct (String.eqb _ _); [apply IH|].
    destruct (_ && _); [|apply IH].
    destruct (IH (S c)) as [Hnum Hact]. simpl. rewrite Hnum.
    split; [reflexivity|]. apply Forall_cons. split; [reflexivity|exact Hact].
Qed.

(** Once the list ends with a [retrieve] step preceded by a [remove] step,
    every round of the put-back loop reads that same [remove] step. *)
Lemma place_back_loop_repeats_last (base : list StateStep) (b : StateStep) (k : nat) :
  length base = S (S k) ->
  base !! k = Some b ->
  sstep_action b = remove ->
  forall (m j : nat) (put_back : list StateStep) (c : nat),
    length put_back = j ->
    StateRetrieval.place_back_loop (seq j m) (base ++ put_back) c =
    Some (base ++ put_back ++
          map (fun t => mk_state_step (c + t) placeBack (sstep_itemId b)) (seq 0 m))%list.
Proof.
  intros Hlen Hb Hact. induction m as [|m IH]; intros j put_back c Hj.
  - simpl. rewrite app_nil_r. reflexivity.
  - cbn [seq StateRetrieval.place_back_loop].
    replace (Z.of_nat (length (base ++ put_back)) - 2 - Z.of_nat j)%Z with (Z.of_nat k)
      by (rewrite length_app; lia).
    rewrite (py_getitem_nat _ k b)
      by (rewrite lookup_app_l by lia; exact Hb).
    rewrite Hact. simpl action_eqb. cbv iota.
    rewrite <- app_assoc.
    rewrite (IH (S j) (put_back ++ [mk_state_step c placeBack (sstep_itemId b)])%list (S c))
      by (rewrite length_app; simpl; lia).
    rewrite <- !app_assoc. simpl. do 4 f_equal.
    + f_equal. lia.
    + rewrite <- seq_shift, map_map. apply map_ext. intros t. f_equal. lia.
Qed.

(** X26: [ContainerState.get_retrieval_steps] never fails on its list
    index.  For an unknown item the plan is empty; otherwise it is the
    [remove] steps numbered from 1, the [retrieve] step, and as many
    [placeBack] steps as [remove] steps, numbered on, every one of which
    names the item of the last [remove] step. *)
Theorem state_retrieval_steps_put_back_the_last_removed
    (s : ContainerState.t) (item_id : string) :
  (find_placed item_id (ContainerState.placed_items s) = None ->
   StateRetrieval.get_retrieval_steps s item_id = Some []) /\
  (forall target,
     find_placed item_id (ContainerState.placed_items s) = Some target ->
     let removes :=
       StateRetrieval.remove_loop (ContainerState.placed_items s) item_id target 1 in
     let k := length removes in
     map sstep removes = seq 1 k /\
     Forall (fun st => sstep_action st = remove) removes /\
     StateRetrieval.get_retrieval_steps s item_id =
       Some (removes ++ [mk_state_step (S k) retrieve item_id] ++
             match last removes with
             | None => []
             | Some b =>
                 map (fun t => mk_state_step (S (S k) + t) placeBack (sstep_itemId b))
                     (seq 0 k)
             end)%list).
Proof.
  unfold StateRetrieval.get_retrieval_steps. split; [intros ->; reflexivity|].
  intros target ->. cbv zeta.
  destruct (remove_loop_spec (ContainerState.placed_items s) item_id target 1)
    as [Hnum Hact].
  split; [exact Hnum|]. split; [exact Hact|].
  set (removes := StateRetrieval.remove_loop _ _ _ _) in *.
  rewrite length_app. simpl length.
  replace (length removes + 1 - 1)%nat with (length removes) by lia.
  destruct (last removes) as [b|] eqn:Hlast.
  - apply last_Some in Hlast as [front ->].
    rewrite length_app. simpl length.
    replace (length front + 1)%nat with (S (length front)) by lia.
    rewrite <- (app_nil_r ((front ++ [b]) ++ [_])%list) at 1.
    rewrite (place_back_loop_repeats_last _ b (length front)).
    + rewrite <- !app_assoc. reflexivity.
    + rewrite !length_app. simpl. lia.
    + rewrite <- app_assoc. rewrite lookup_app_r by lia.
      rewrite Nat.sub_diag. reflexivity.
    + apply Forall_app in Hact as [_ Hb]. inversion Hb; assumption.
    + reflexivity.
  - apply last_None in Hlast. rewrite Hlast. reflexivity.
Qed.

Example state_retrieval_steps_of_height_stack :
  StateRetrieval.get_retrieval_steps height_stack "000203" =
  Some [mk_state_step 1 remove "000201"; mk_state_step 2 remove "000202";
        mk_state_step 3 retrieve "000203";
        mk_state_step 4 placeBack "000202"; mk_state_step 5 placeBack "000202"].
Proof. reflexivity. Qed.

(** ** The accessibility tracker *)

Lemma run_calls_no_overlap cid w d h zn calls :
  no_overlap_inv (run_calls (ContainerState.init cid w d h zn) calls).
Proof.
  induction calls as [|c cs IH] using rev_ind.
  - intros i j p q _ Hi. unfold run_calls in Hi. simpl in Hi. discriminate.
  - rewrite run_calls_snoc. apply do_call_no_overlap, IH.
Qed.

Lemma find_placed_Some item_id l target :
  find_placed item_id l = Some target ->
  PlacedItem.item_id target = item_id /\ exists i, l !! i = Some target.
Proof.
  induction l as [|item l IH]; simpl; [discriminate|].
  destruct (String.eqb (PlacedItem.item_id item) item_id) eqn:E.
  - intros [= <-]. apply String.eqb_eq in E. split; [exact E|]. exists 0%nat. reflexivity.
  - intros H. destruct (IH H) as [Hid [i Hi]]. split; [exact Hid|]. exists (S i). exact Hi.
Qed.

(** X27: in a container state built by [place_item] calls, every item the
    tracker counts as blocking a target of non-negative depth lies wholly in
    front of it: it ends, on the depth axis, no later than the target
    starts. *)
Theorem tracked_blockers_lie_in_front
    (cid : string) (w d h : Q) (zn : string) (calls : list place_call)
    (target_item_id : string) (target other : PlacedItem.t)
    (Htarget : find_placed target_item_id
                 (ContainerState.placed_items
                    (run_calls (ContainerState.init cid w d h zn) calls)) = Some target)
    (Hother : other ∈ ContainerState.placed_items
                        (run_calls (ContainerState.init cid w d h zn) calls))
    (Hdistinct : PlacedItem.item_id other <> target_item_id)
    (Hblocks : AccessibilityTracker.blocks_access other target = true)
    (Hdepth : (0 <= PlacedItem.depth target)%Q) :
  (PlacedItem.y other + PlacedItem.depth other <= PlacedItem.y target)%Q.
Proof.
  apply find_placed_Some in Htarget as [Hid [j Hj]].
  apply list_elem_of_lookup_1 in Hother as [i Hi].
  assert (Hij : i <> j).
  { intros ->. rewrite Hi in Hj. injection Hj as ->. contradiction. }
  destruct (run_calls_no_overlap cid w d h zn calls i j other target Hij Hi Hj)
    as [Hno _].
  unfold aabb_overlap in Hno. apply negb_false_iff, orb6_true_cases in Hno.
  unfold AccessibilityTracker.blocks_access in Hblocks. simpl in *. q_tests.
  destruct Hno as [Hsep|[Hsep|[Hsep|[Hsep|[Hsep|Hsep]]]]];
    apply Qle_bool_iff in Hsep; lra.
Qed.

(** A run of X27: two items one behind the other. *)
Lemma tracked_blockers_lie_in_front_witness :
  (PlacedItem.y front_item + PlacedItem.depth front_item <= PlacedItem.y behind_item)%Q.
Proof.
  apply (tracked_blockers_lie_in_front "contA" 100 100 100 "Lab"
           [front_call; behind_call; beside_call] "000102" behind_item front_item).
  - reflexivity.
  - apply list_elem_of_here.
  - discriminate.
  - reflexivity.
  - vm_compute. discriminate.
Defined.

Lemma py_max_0_range (q : Q) : (q <= 100)%Q -> (0 <= py_max 0 q <= 100)%Q.
Proof.
  intros Hq. unfold py_max. destruct (Qlt_bool 0 q) eqn:E; q_tests; lra.
Qed.

(** X28: the accessibility score lies between 0 and 100; it is 0 for an
    item the state does not hold, 100 for a held item that nothing blocks,
    and 10 lower per blocking item, down to 0. *)
Theorem accessibility_score_range (item_id : string) (s : ContainerState.t) :
  (0 <= AccessibilityTracker.get_accessibility_score item_id s <= 100)%Q /\
  (find_placed item_id (ContainerState.placed_items s) = None ->
   AccessibilityTracker.get_accessibility_score item_id s = 0%Q) /\
  (forall n, AccessibilityTracker.calculate_retrieval_steps item_id s = Some n ->
     (n <= 10)%nat ->
     (AccessibilityTracker.get_accessibility_score item_id s ==
      100 - inject_Z (Z.of_nat n) * 10)%Q) /\
  (forall n, AccessibilityTracker.calculate_retrieval_steps item_id s = Some n ->
     (10 <= n)%nat ->
     (AccessibilityTracker.get_accessibility_score item_id s == 0)%Q).
Proof.
  unfold AccessibilityTracker.get_accessibility_score.
  assert (Hnat : forall n : nat, (0 <= inject_Z (Z.of_nat n))%Q).
  { intros n. change 0%Q with (inject_Z 0). rewrite <- Zle_Qle. lia. }
  split; [|split; [|split]].
  - destruct (AccessibilityTracker.calculate_retrieval_steps item_id s) as [n|]; [|lra].
    apply py_max_0_range. specialize (Hnat n). lra.
  - unfold AccessibilityTracker.calculate_retrieval_steps. intros ->. reflexivity.
  - intros n -> Hn. unfold py_max.
    assert (Hle : (inject_Z (Z.of_nat n) <= 10)%Q).
    { change 10%Q with (inject_Z 10). rewrite <- Zle_Qle. lia. }
    destruct (Qlt_bool 0 _) eqn:E; q_tests; lra.
  - intros n -> Hn. unfold py_max.
    assert (Hge : (10 <= inject_Z (Z.of_nat n))%Q).
    { change 10%Q with (inject_Z 10). rewrite <- Zle_Qle. lia. }
    destruct (Qlt_bool 0 _) eqn:E; q_tests; lra.
Qed.

(** ** Retrieval priority *)

(** X29: for an item whose priority is not negative, the retrieval priority
    lies between 0 and the composite priority, equals the composite
    priority when no step is needed, and does not grow with the number of
    retrieval steps. *)
Theorem retrieval_priority_falls_with_steps
    (parser : string -> option datetime) (item : Item.t) (now : datetime)
    (Hpriority : (0 <= Item.priority item)%Z) :
  (forall n,
     (0 <= PriorityOps.calculate_retrieval_priority parser item n now <=
      PriorityCalculator.calculate_composite_priority parser item now)%Q) /\
  (PriorityOps.calculate_retrieval_priority parser item 0 now ==
   PriorityCalculator.calculate_composite_priority parser item now)%Q /\
  (forall n m, (n <= m)%nat ->
     (PriorityOps.calculate_retrieval_priority parser item m now <=
      PriorityOps.calculate_retrieval_priority parser item n now)%Q).
Proof.
  pose proof (composite_priority_range parser item now Hpriority) as [Hc0 _].
  set (c := PriorityCalculator.calculate_composite_priority parser item now) in *.
  assert (Hnat : forall n : nat, (0 <= inject_Z (Z.of_nat n))%Q).
  { intros n. change 0%Q with (inject_Z 0). rewrite <- Zle_Qle. lia. }
  assert (Hmono : forall n m : nat, (n <= m)%nat ->
            (inject_Z (Z.of_nat n) <= inject_Z (Z.of_nat m))%Q).
  { intros n m Hnm. rewrite <- Zle_Qle. lia. }
  unfold PriorityOps.calculate_retrieval_priority. fold c. clearbody c.
  split; [|split].
  - intros n. specialize (Hnat n). unfold py_max.
    destruct (90 <=? Item.priority item)%Z; [|destruct (70 <=? Item.priority item)%Z];
      destruct (Qlt_bool _ 0) eqn:E; q_tests; lra.
  - unfold py_max. change (inject_Z (Z.of_nat 0)) with 0%Q.
    destruct (90 <=? Item.priority item)%Z; [|destruct (70 <=? Item.priority item)%Z];
      destruct (Qlt_bool _ 0) eqn:E; q_tests; lra.
  - intros n m Hnm. specialize (Hmono n m Hnm). unfold py_max.
    destruct (90 <=? Item.priority item)%Z; [|destruct (70 <=? Item.priority item)%Z];
      repeat match goal with
             | |- context [Qlt_bool ?a ?b] =>
                 let E := fresh "E" in destruct (Qlt_bool a b) eqn:E
             end; q_tests; lra.
Qed.

(** A run of X29: the spent item. *)
Lemma retrieval_priority_falls_with_steps_witness :
  (forall n,
     (0 <= PriorityOps.calculate_retrieval_priority fromisoformat_date spent_item n
             sample_now <=
      PriorityCalculator.calculate_composite_priority fromisoformat_date spent_item
        sample_now)%Q) /\
  (PriorityOps.calculate_retrieval_priority fromisoformat_date spent_item 0 sample_now ==
   PriorityCalculator.calculate_composite_priority fromisoformat_date spent_item
     sample_now)%Q /\
  (forall n m, (n <= m)%nat ->
     (PriorityOps.calculate_retrieval_priority fromisoformat_date spent_item m sample_now <=
      PriorityOps.calculate_retrieval_priority fromisoformat_date spent_item n
        sample_now)%Q).
Proof.
  apply (retrieval_priority_falls_with_steps fromisoformat_date spent_item sample_now).
  vm_compute. discriminate.
Defined.
